(** * Sticker-Creator: carton labels from CSV rows

    A shallow embedding of [pyStickerCreator.py] and the properties of its
    sanitizers, column resolver, shrink-to-fit loops, barcode sizing and
    batch driver.

    Conventions of the embedding:
    - a Python [str] is a list of Unicode code points ([N]);
    - Python [None] is [None] of an [option]; a value that may be [None]
      or a [str] has type [option str];
    - Python floats are read as exact rationals ([Q]); every statement on
      sizes is therefore up to rounding;
    - a raised exception is the [Raise] outcome of the [result] type;
    - a written file is its name and the drawing operations of its page,
      in order; the line printed after each file, the font setup at
      import time and the command line are left out;
    - the Unicode tables of the interpreter and the reportlab calls
      ([stringWidth], [Code128], [A4]) are parameters: records [PyRuntime]
      and [Backend]. *)

From Stdlib Require Import String Ascii DecimalString.
From Stdlib Require Import ZArith NArith QArith Qfield Lqa Lia List Bool.
From Equations Require Import Equations.
Import ListNotations.

Set Implicit Arguments.

(** ** Strings *)

Definition str := list N.

(** An ASCII literal as a Python string. *)
Definition lit (s : string) : str :=
  map N_of_ascii (list_ascii_of_string s).

Definition is_empty (s : str) : bool :=
  match s with [] => true | _ :: _ => false end.

(** [s.lstrip(c)] for a one-character argument. *)
Fixpoint lstrip_char (c : N) (s : str) : str :=
  match s with
  | x :: s' => if N.eqb x c then lstrip_char c s' else s
  | [] => []
  end.

(** [str(k)] for an integer. *)
Definition str_of_int (z : Z) : str :=
  lit (NilZero.string_of_int (Z.to_int z)).

(** ** Outcomes *)

Inductive exn := ZeroDivisionError | TypeError | AttributeError.

Inductive result (A : Type) :=
| Ok (a : A)
| Raise (e : exn).
Arguments Ok {A} a.
Arguments Raise {A} e.

Definition bind {A B} (r : result A) (k : A -> result B) : result B :=
  match r with
  | Ok a => k a
  | Raise e => Raise e
  end.

Declare Scope result_scope.
Delimit Scope result_scope with result.
Notation "x <- e ;; k" := (bind e (fun x => k))
  (at level 61, e at next level, right associativity) : result_scope.

(** ** The interpreter's tables

    What [str.strip], [str.lower], [re] ([\d], [\s], [\w]),
    [unicodedata] and [int] take from the running interpreter. *)

Record PyRuntime := {
  (** the decimal value of a code point of category Nd; [\d] and
      [int] both test it *)
  decimal_value : N -> option N;
  (** [str.isspace] on one code point; [str.strip] and [\s] test it *)
  is_space : N -> bool;
  (** [\w]: alphanumeric or underscore *)
  is_word : N -> bool;
  lower : str -> str;
  nfkd : str -> str;
  (** [unicodedata.combining], the canonical combining class *)
  combining : N -> N;
  (** [sys.get_int_max_str_digits()]; 0 when there is no limit *)
  int_max_str_digits : nat;

  ascii_decimal : forall c, (c < 128)%N ->
    decimal_value c =
      if ((48 <=? c) && (c <=? 57))%N then Some (c - 48)%N else None;
  space_not_decimal : forall c, is_space c = true -> decimal_value c = None;
  int_limit_range : int_max_str_digits = 0%nat \/ (640 <= int_max_str_digits)%nat
}.

Section Sanitizers.

Variable R : PyRuntime.

Definition is_decimal (c : N) : bool :=
  match decimal_value R c with Some _ => true | None => false end.

Fixpoint lstrip (s : str) : str :=
  match s with
  | c :: s' => if is_space R c then lstrip s' else s
  | [] => []
  end.

Definition rstrip (s : str) : str := rev (lstrip (rev s)).

(** [s.strip()] *)
Definition strip (s : str) : str := rstrip (lstrip s).

(** [re.sub] of every [\D] by the empty string. *)
Definition remove_non_digits (s : str) : str := filter is_decimal s.

Definition sanitize_numeric_keep_zeros (value : option str) (default : option str)
  : option str :=
  match value with
  | None => default
  | Some v =>
      let s := remove_non_digits (strip v) in
      if negb (is_empty s) then Some s else default
  end.

Definition sanitize_any (value : option str) (default : option str) : option str :=
  match value with
  | None => default
  | Some v =>
      let s := strip v in
      if negb (is_empty s) then Some s else default
  end.

(** [None.lstrip] would raise [AttributeError]. *)
Definition strip_leading_zeros_keep_zero (s : option str) : result str :=
  match sanitize_numeric_keep_zeros s (Some (lit "0")) with
  | Some s1 =>
      let s2 := lstrip_char 48 s1 in
      Ok (if negb (is_empty s2) then s2 else lit "0")
  | None => Raise AttributeError
  end.

(** Truthiness of a value that is [None] or a string. *)
Definition truthy (v : option str) : bool :=
  match v with
  | Some s => negb (is_empty s)
  | None => false
  end.

(** [a or b] *)
Definition py_or (a b : option str) : option str :=
  if truthy a then a else b.

(** The character class of the first [re.sub] of
    [safe_filename_component]: slash, star, question mark, colon, double
    quote, angle brackets and bar. Its backslash only escapes the slash. *)
Definition unsafe_filename_chars : list N :=
  [47; 42; 63; 58; 34; 60; 62; 124]%N.

Definition is_unsafe (c : N) : bool :=
  existsb (N.eqb c) unsafe_filename_chars.

(** [re.sub] of each such character by an underscore. *)
Definition replace_unsafe (s : str) : str :=
  map (fun c => if is_unsafe c then 95%N else c) s.

(** [re.sub] of [\s+] by one space: each maximal run of whitespace
    becomes one space. [in_run] tells that the previous character was
    whitespace. *)
Fixpoint collapse_ws_from (in_run : bool) (s : str) : str :=
  match s with
  | [] => []
  | c :: s' =>
      if is_space R c
      then (if in_run then collapse_ws_from true s'
            else 32%N :: collapse_ws_from true s')
      else c :: collapse_ws_from false s'
  end.

Definition collapse_ws (s : str) : str := collapse_ws_from false s.

(** [re.sub] on [None] raises [TypeError]. *)
Definition safe_filename_component (value : option str) (default : option str)
  : result str :=
  match py_or (sanitize_any value default) default with
  | Some s =>
      let s := replace_unsafe s in
      Ok (strip (collapse_ws s))
  | None => Raise TypeError
  end.

(** [s[:n]] for an integer [n], negative [n] counting from the end. *)
Definition slice_to (s : str) (n : Z) : str :=
  if (n <? 0)%Z
  then firstn (Z.to_nat (Z.of_nat (length s) + n)) s
  else firstn (Z.to_nat n) s.

Definition truncate_component (value : option str) (max_len : Z) : str :=
  match value with
  | None => []
  | Some s => if (Z.of_nat (length s) <=? max_len)%Z then s else slice_to s max_len
  end.

Definition normalize_for_match (s : option str) : str :=
  match s with
  | None => []
  | Some s =>
      let s := lower R (strip s) in
      let s := nfkd R s in
      filter (fun ch => N.eqb (combining R ch) 0) s
  end.

End Sanitizers.

(** ** Regular expressions of the column resolver

    The patterns of [build_column_map] use literal characters, the word
    boundary [\b] and [\s*] only. [re.search] is read as a truth value, as
    [find_idx] does. *)

Inductive atom :=
| Chr (c : N)        (* a literal character *)
| WordBoundary       (* \b *)
| Spaces.            (* \s* *)

Definition pattern := list atom.

Definition chars (s : string) : pattern := map Chr (lit s).

(** [\bword\b] *)
Definition whole_word (s : string) : pattern :=
  WordBoundary :: chars s ++ [WordBoundary].

Section Regex.

Variable R : PyRuntime.

Definition word_at (c : option N) : bool :=
  match c with
  | Some x => is_word R x
  | None => false
  end.

(** [\b] holds between a word character and a non-word character or an
    end of the string. [prev] is the character before the position. *)
Definition at_boundary (prev : option N) (s : str) : bool :=
  xorb (word_at prev) (word_at (hd_error s)).

(** Does the pattern match a prefix of [s]? *)
Fixpoint match_here (p : pattern) (prev : option N) (s : str) {struct p} : bool :=
  match p with
  | [] => true
  | Chr c :: p' =>
      match s with
      | x :: s' => N.eqb x c && match_here p' (Some x) s'
      | [] => false
      end
  | WordBoundary :: p' => at_boundary prev s && match_here p' prev s
  | Spaces :: p' =>
      (fix spaces (prev : option N) (s : str) {struct s} : bool :=
         match_here p' prev s ||
         match s with
         | x :: s' => is_space R x && spaces (Some x) s'
         | [] => false
         end) prev s
  end.

Fixpoint search_from (p : pattern) (prev : option N) (s : str) : bool :=
  match_here p prev s ||
  match s with
  | x :: s' => search_from p (Some x) s'
  | [] => false
  end.

(** The truth value of [re.search(p, h)]. *)
Definition re_search (p : pattern) (h : str) : bool := search_from p None h.

End Regex.

(** ** Column resolver *)

Record ColumnMap := {
  company : option Z;
  article : option Z;
  quantity : option Z;
  batch : option Z;
  order : option Z;
  carton : option Z
}.

Definition company_patterns : list pattern :=
  [whole_word "company"; whole_word "firma"; whole_word "unternehmen"].
Definition article_patterns : list pattern :=
  [chars "artikel"; chars "item" ++ Spaces :: chars "no";
   chars "article" ++ Spaces :: chars "no";
   whole_word "sku"; whole_word "item"; whole_word "article"].
Definition quantity_patterns : list pattern :=
  [chars "stuckzahl"; chars "stueckzahl"; chars "quantity"; chars "qty";
   chars "menge"].
Definition batch_patterns : list pattern := [chars "chargen"; chars "batch"].
Definition order_patterns : list pattern := [chars "bestell"; chars "order"].
Definition carton_patterns : list pattern := [chars "karton"; chars "carton"].

Section Resolver.

Variable R : PyRuntime.

(** The inner loop of [find_idx]: does any pattern match this cell? *)
Definition any_match (patterns : list pattern) (h : str) : bool :=
  existsb (fun p => re_search R p h) patterns.

(** [find_idx], with [i] the index [enumerate] gives to the head. *)
Fixpoint find_idx_from (i : Z) (patterns : list pattern) (normalized : list str)
  : option Z :=
  match normalized with
  | [] => None
  | h :: rest =>
      if any_match patterns h then Some i
      else find_idx_from (i + 1) patterns rest
  end.

Definition find_idx (normalized : list str) (patterns : list pattern) : option Z :=
  find_idx_from 0 patterns normalized.

Definition build_column_map (header_row : list str) : ColumnMap :=
  let normalized := map (fun h => normalize_for_match R (Some h)) header_row in
  {| company := find_idx normalized company_patterns;
     article := find_idx normalized article_patterns;
     quantity := find_idx normalized quantity_patterns;
     batch := find_idx normalized batch_patterns;
     order := find_idx normalized order_patterns;
     carton := find_idx normalized carton_patterns |}.

Definition get_cell (row : list str) (idx : option Z) (default : str) : str :=
  match idx with
  | None => default
  | Some idx =>
      if ((idx <? 0) || (idx >=? Z.of_nat (length row)))%Z then default
      else nth (Z.to_nat idx) row default
  end.

End Resolver.

(** ** [int] of a string

    Surrounding whitespace is dropped, one sign is accepted, digits may
    be separated by single underscores, and more digits than the
    interpreter's limit are refused. [None] stands for [ValueError], the
    only exception [int] raises on a string. *)

Section Int.

Variable R : PyRuntime.

(** The digits after the sign. [need_digit] holds at the start and after
    an underscore. The result is the value and the number of digits. *)
Fixpoint int_body (acc : Z) (n : nat) (need_digit : bool) (s : str)
  : option (Z * nat) :=
  match s with
  | [] => if need_digit then None else Some (acc, n)
  | c :: s' =>
      match decimal_value R c with
      | Some d => int_body (10 * acc + Z.of_N d) (S n) false s'
      | None =>
          if N.eqb c 95 && negb need_digit then int_body acc n true s'
          else None
      end
  end.

Definition over_limit (n : nat) : bool :=
  negb (Nat.eqb (int_max_str_digits R) 0) && (int_max_str_digits R <? n)%nat.

Definition py_int (s : str) : option Z :=
  let t := strip R s in
  let '(neg, body) :=
    match t with
    | c :: r =>
        if N.eqb c 43 then (false, r)          (* a plus sign *)
        else if N.eqb c 45 then (true, r)      (* a minus sign *)
        else (false, t)
    | [] => (false, t)
    end in
  match int_body 0 0 true body with
  | Some (z, n) =>
      if over_limit n then None
      else Some (if neg then (- z)%Z else z)
  | None => None
  end.

End Int.

(** ** Rational arithmetic of the layout *)

Open Scope Q_scope.

(** [a > b] and [a < b] as tests. *)
Definition Qgtb (a b : Q) : bool := negb (Qle_bool a b).
Definition Qltb (a b : Q) : bool := Qgtb b a.

(** [a / b]; a zero divisor raises. *)
Definition checked_div (a b : Q) : result Q :=
  if Qeq_bool b 0 then Raise ZeroDivisionError else Ok (a / b).

(** ** Shrink-to-fit

    The loop of the header row,
    [while font_size > min_font and stringWidth(..., font_size) > available_w:
       font_size -= 1],
    with [width_at] the measured width of the text at a size. The loop of
    [draw_row] tests the same two conditions in the other order and keeps
    the last measure in [text_w]; measuring has no effect, so both loops
    are this function. *)

Definition shrink_cond (width_at : Z -> Q) (available_w : Q) (min_font font_size : Z)
  : bool :=
  (font_size >? min_font)%Z && Qgtb (width_at font_size) available_w.

Equations? shrink_to_fit (width_at : Z -> Q) (available_w : Q)
  (min_font font_size : Z) : Z
  by wf (Z.to_nat (font_size - min_font)) lt :=
  shrink_to_fit width_at available_w min_font font_size
    with Z_gt_dec font_size min_font := {
    | left _ with Qgtb (width_at font_size) available_w := {
        | true := shrink_to_fit width_at available_w min_font (font_size - 1);
        | false := font_size };
    | right _ := font_size }.
Proof. lia. Qed.

(** One run of the loop, counting the iterations: [shrink_run s n s']
    when the loop entered at size [s] leaves at size [s'] after [n]
    executions of its body. *)
Inductive shrink_run (width_at : Z -> Q) (available_w : Q) (min_font : Z)
  : Z -> nat -> Z -> Prop :=
| shrink_exit s :
    shrink_cond width_at available_w min_font s = false ->
    shrink_run width_at available_w min_font s 0 s
| shrink_iter s n s' :
    shrink_cond width_at available_w min_font s = true ->
    shrink_run width_at available_w min_font (s - 1) n s' ->
    shrink_run width_at available_w min_font s (S n) s'.

(** ** Barcode sizing (the barcode row of [generate_pdf]) *)

Definition bar_scale : Q := 100.
Definition initial_bar_width : Q := (1.2 / 100) * bar_scale.
Definition initial_bar_height : Q := (40.0 / 100) * bar_scale.

Record fit := {
  final_width : Q;
  final_height : Q;
  bar_width_final : Q
}.

(** Sizes before the clamps. *)
Definition candidate (size_width_init size_height_init size_width_target : Q)
  : Q * Q :=
  let size_diff_percent := (size_width_init / 100.0) * size_width_target in
  let final_width := size_diff_percent in
  let final_height := (size_height_init / 100.0) * size_diff_percent in
  (final_width, final_height).

Definition clamp_width (size_width_target : Q) (wh : Q * Q) : result (Q * Q) :=
  let '(final_width, final_height) := wh in
  if Qgtb final_width size_width_target then
    (scale_w <- checked_div size_width_target final_width ;;
     Ok (final_width * scale_w, final_height * scale_w))%result
  else Ok wh.

Definition clamp_height (size_height_target : Q) (wh : Q * Q) : result (Q * Q) :=
  let '(final_width, final_height) := wh in
  if Qgtb final_height size_height_target then
    (scale_h <- checked_div size_height_target final_height ;;
     Ok (final_width * scale_h, final_height * scale_h))%result
  else Ok wh.

Definition min_bar_width : Q := 0.2.

(** Lines 286 to 305: from the size of the baseline render and the target
    box to the final width, height and bar width. *)
Definition barcode_fit
  (size_width_init size_height_init size_width_target size_height_target : Q)
  : result fit :=
  (wh <- clamp_width size_width_target
          (candidate size_width_init size_height_init size_width_target) ;;
   wh <- clamp_height size_height_target wh ;;
   ratio <- checked_div (fst wh) size_width_init ;;
   let bar_width_final := initial_bar_width * ratio in
   let bar_width_final :=
     if Qltb bar_width_final min_bar_width then min_bar_width
     else bar_width_final in
   Ok {| final_width := fst wh;
         final_height := snd wh;
         bar_width_final := bar_width_final |})%result.

(** ** The rendering backend (reportlab) *)

Record Backend := {
  (** the page size [A4]: width and height *)
  A4 : Q * Q;
  (** the font names left by the font setup at import time *)
  FONT_REGULAR : str;
  FONT_BOLD : str;
  (** [pdfmetrics.stringWidth(text, fontName, fontSize)] *)
  stringWidth : str -> str -> Z -> Q;
  (** [code128.Code128(value, barHeight=h, barWidth=w)]: the [width] and
      [height] of the barcode object *)
  code128 : str -> Q -> Q -> Q * Q
}.

(** What [generate_pdf] does to its canvas, in order. *)
Inductive op :=
| SetLineWidth (w : Q)
| Rect (x y w h : Q)
| SetFont (font : str) (size : Z)
| DrawString (x y : Q) (text : str)
| DrawCentredString (x y : Q) (text : str)
| DrawBarcode (value : str) (barHeight barWidth : Q) (x y : Q)
| Save.

(** The arguments of one call of [generate_pdf]. *)
Record label := {
  company_raw : str;
  artikel_raw : str;
  qty_raw : str;
  batch_raw : str;
  order_raw : str;
  carton_no : str
}.

(** One written file. *)
Record pdf := {
  pdf_file : str;
  page : list op
}.

(** A value inside an f-string. *)
Definition fmt (v : option str) : str :=
  match v with
  | Some s => s
  | None => lit "None"
  end.

(** A value where reportlab needs text. *)
Definition as_text (v : option str) : result str :=
  match v with
  | Some s => Ok s
  | None => Raise TypeError
  end.

Section Layout.

Variable R : PyRuntime.
Variable B : Backend.

Definition row_heights : list Q := [90; 70; 70; 150; 70; 70; 70].

Definition row_height (i : nat) : Q := nth i row_heights 0.

(** [draw_row], closed over the frame position and the column widths. *)
Definition draw_row (label_x col1_w col2_w : Q)
  (y_top height : Q) (main_label sub_label : str)
  (value : option str) (shrinkable : bool) : list op :=
  let main_label_font_size := 36%Z in
  [ Rect label_x (y_top - height) col1_w height;
    Rect (label_x + col1_w) (y_top - height) col2_w height;
    SetFont (FONT_BOLD B) main_label_font_size;
    DrawString (label_x + 12) (y_top - 30) main_label;
    SetFont (FONT_BOLD B) 18;
    DrawString (label_x + 12) (y_top - 54) sub_label ] ++
  match value with
  | None => []
  | Some value =>
      let font_size_val :=
        if shrinkable then
          let available_w_val := col2_w - 20 in
          shrink_to_fit (stringWidth B value (FONT_BOLD B)) available_w_val
            8 main_label_font_size
        else main_label_font_size in
      let text_y := y_top - (height / 2) - (inject_Z font_size_val * 0.35) in
      [ SetFont (FONT_BOLD B) font_size_val;
        DrawString (label_x + col1_w + 10) text_y value ]
  end.

(** The payload of the barcode: [ARTICLE_NO|QUANTITY|BATCH_NO|CARTON_NO]. *)
Definition barcode_payload (artikel_display qty_digits batch_display : option str)
  (carton_no : str) : str :=
  fmt artikel_display ++ lit "|" ++ fmt qty_digits ++ lit "|" ++
  fmt batch_display ++ lit "|" ++ carton_no.

(** The barcode row: the frame of the cell, the fitted barcode and the
    caption. *)
Definition barcode_row (label_x label_w row_top rh : Q) (barcode_data : str)
  : result (list op) :=
  let text_size := 12%Z in
  let text_pad_bottom := 16 in
  let text_area_h := inject_Z text_size + 6 in
  let top_pad := 16 in
  let bottom_pad := text_area_h + text_pad_bottom in
  let size_height_target := rh - top_pad - bottom_pad in
  let size_height_target :=
    if Qltb size_height_target 30 then 30 else size_height_target in
  let size_width_target := label_w - 60 in
  let initial_barcode := code128 B barcode_data initial_bar_height initial_bar_width in
  let size_width_init := fst initial_barcode in
  let size_height_init := snd initial_barcode in
  (f <- barcode_fit size_width_init size_height_init
          size_width_target size_height_target ;;
   let barcode_obj := code128 B barcode_data (final_height f) (bar_width_final f) in
   let barcode_w := fst barcode_obj in
   let barcode_h := snd barcode_obj in
   let barcode_x := label_x + (label_w - barcode_w) / 2 in
   let barcode_y := (row_top - rh) + top_pad + (size_height_target - barcode_h) / 2 in
   Ok [ Rect label_x (row_top - rh) label_w rh;
        DrawBarcode barcode_data (final_height f) (bar_width_final f)
          barcode_x (barcode_y + 15);
        SetFont (FONT_REGULAR B) text_size;
        DrawCentredString (label_x + label_w / 2) ((row_top - rh) + text_pad_bottom)
          barcode_data ])%result.

Definition generate_pdf (a : label) : result pdf :=
  let company := sanitize_any R (Some (company_raw a)) (Some (lit "COMPANY_NAME")) in
  let artikel_display := sanitize_any R (Some (artikel_raw a)) (Some (lit EmptyString)) in
  let order_display := sanitize_any R (Some (order_raw a)) (Some (lit EmptyString)) in
  let qty_digits := sanitize_numeric_keep_zeros R (Some (qty_raw a)) (Some (lit "0")) in
  (quantity_display <- strip_leading_zeros_keep_zero R qty_digits ;;
   let batch_display := sanitize_any R (Some (batch_raw a)) (Some (lit "1")) in
   let barcode_data :=
     barcode_payload artikel_display qty_digits batch_display (carton_no a) in
   s <- safe_filename_component R company (Some (lit "Company")) ;;
   let company_safe := truncate_component (Some s) 40 in
   s <- safe_filename_component R order_display (Some (lit "NoOrderNo")) ;;
   let order_safe := truncate_component (Some s) 40 in
   s <- safe_filename_component R batch_display (Some (lit "Batch")) ;;
   let batch_safe := truncate_component (Some s) 20 in
   s <- safe_filename_component R (Some barcode_data) (Some (lit "Barcode")) ;;
   let barcode_safe := truncate_component (Some s) 80 in
   let pdf_file :=
     company_safe ++ lit " - Order " ++ order_safe ++ lit ", Batch " ++
     batch_safe ++ lit ", Box " ++ carton_no a ++ lit ".pdf" in
   let '(page_w, page_h) := A4 B in
   let margin_x := 36 in
   let label_w := page_w - 2 * margin_x in
   let label_h := page_h - 140 in
   let label_x := margin_x in
   let label_y := (page_h - label_h) / 2 in
   let frame :=
     [ SetLineWidth 3; Rect label_x label_y label_w label_h; SetLineWidth 1.5 ] in
   let row_top := label_y + label_h in
   let col1_w := label_w * 0.45 in
   let col2_w := label_w - col1_w in
   let header_h := row_height 0 in
   let max_font := 42%Z in
   let min_font := 12%Z in
   let available_w := label_w - 24 in
   company <- as_text company ;;
   let font_size :=
     shrink_to_fit (stringWidth B company (FONT_BOLD B)) available_w min_font max_font in
   let header :=
     [ Rect label_x (row_top - header_h) label_w header_h;
       SetFont (FONT_BOLD B) font_size;
       DrawCentredString (label_x + label_w / 2)
         (row_top - header_h / 2 - (inject_Z font_size * 0.33)) company ] in
   let row_top := row_top - header_h in
   let draw_row := draw_row label_x col1_w col2_w in
   let rh := row_height 1 in
   let article_row :=
     draw_row row_top rh (lit "Article No.") (lit "(SKU)") artikel_display true in
   let row_top := row_top - rh in
   let rh := row_height 2 in
   let quantity_row :=
     draw_row row_top rh (lit "Quantity") (lit "(Per box)")
       (Some quantity_display) false in
   let row_top := row_top - rh in
   let rh := row_height 3 in
   barcode <- barcode_row label_x label_w row_top rh barcode_data ;;
   let row_top := row_top - rh in
   let rh := row_height 4 in
   let batch_row :=
     draw_row row_top rh (lit "Order Index") (lit "(Nth item in your order)")
       batch_display true in
   let row_top := row_top - rh in
   let rh := row_height 5 in
   let order_row :=
     draw_row row_top rh (lit "Order No.") (lit "(Your order number)")
       order_display true in
   let row_top := row_top - rh in
   let rh := row_height 6 in
   let carton_row :=
     draw_row row_top rh (lit "Box No.") (lit "(Nth box for this Article No.)")
       (Some (carton_no a)) false in
   Ok {| pdf_file := pdf_file;
         page := frame ++ header ++ article_row ++ quantity_row ++ barcode ++
                 batch_row ++ order_row ++ carton_row ++ [Save] |})%result.

End Layout.

(** ** Batch driver *)

(** [range(lo, hi)] *)
Definition py_range (lo hi : Z) : list Z :=
  map (fun i => (lo + Z.of_nat i)%Z) (seq 0 (Z.to_nat (hi - lo))).

Record run_state := {
  header : option (list str);
  colmap : option ColumnMap;
  (** the files written so far, oldest first *)
  written : list pdf
}.

Section Driver.

Variable R : PyRuntime.
Variable B : Backend.

(** The test that skips a row: [not row or all(... strip() == ...)]. *)
Definition is_blank_row (row : list str) : bool :=
  match row with
  | [] => true
  | _ => forallb (fun cell => is_empty (strip R cell)) row
  end.

(** [k_total] of a data row, from the carton cell. *)
Definition carton_total (karton_raw : str) : Z :=
  let karton_digits :=
    sanitize_numeric_keep_zeros R (Some karton_raw) (Some (lit "1")) in
  let k_total :=
    match karton_digits with
    | Some s =>
        if truthy karton_digits then
          match py_int R s with
          | Some k => k
          | None => 1%Z            (* except ValueError *)
          end
        else 1%Z
    | None => 1%Z
    end in
  if (k_total <? 1)%Z then 1%Z else k_total.

(** The calls of [generate_pdf] that the inner loop makes for a data row,
    in order. *)
Definition row_labels (colmap : ColumnMap) (row : list str) : list label :=
  let company_raw := get_cell row (company colmap) (lit "COMPANY_NAME") in
  let artikel_raw := get_cell row (article colmap) (lit EmptyString) in
  let qty_raw := get_cell row (quantity colmap) (lit "0") in
  let batch_raw := get_cell row (batch colmap) (lit "1") in
  let order_raw := get_cell row (order colmap) (lit EmptyString) in
  let karton_raw := get_cell row (carton colmap) (lit "1") in
  let k_total := carton_total karton_raw in
  map (fun k =>
         {| company_raw := company_raw; artikel_raw := artikel_raw;
            qty_raw := qty_raw; batch_raw := batch_raw;
            order_raw := order_raw; carton_no := str_of_int k |})
      (py_range 1 (k_total + 1)).

(** Running the calls one after the other; an exception ends the run and
    leaves the files written before it. *)
Fixpoint emit (calls : list label) (out : list pdf) : list pdf * option exn :=
  match calls with
  | [] => (out, None)
  | a :: rest =>
      match generate_pdf R B a with
      | Ok p => emit rest (out ++ [p])
      | Raise e => (out, Some e)
      end
  end.

(** The body of the loop over the rows of the reader. *)
Definition process_row (st : run_state) (row : list str)
  : run_state * option exn :=
  if is_blank_row row then (st, None)
  else
    match header st with
    | None =>
        ({| header := Some row;
            colmap := Some (build_column_map R row);
            written := written st |}, None)
    | Some _ =>
        match colmap st with
        | None => (st, Some AttributeError)     (* None.get *)
        | Some cm =>
            let '(out, e) := emit (row_labels cm row) (written st) in
            ({| header := header st; colmap := colmap st; written := out |}, e)
        end
    end.

Fixpoint run_rows (rows : list (list str)) (st : run_state)
  : run_state * option exn :=
  match rows with
  | [] => (st, None)
  | row :: rest =>
      match process_row st row with
      | (st', None) => run_rows rest st'
      | (st', Some e) => (st', Some e)
      end
  end.

(** [run_csv] on the rows the reader yields: the files written, and the
    exception that ended the run if there was one. *)
Definition run_csv (rows : list (list str)) : list pdf * option exn :=
  let '(st, e) :=
    run_rows rows {| header := None; colmap := None; written := [] |} in
  (written st, e).

End Driver.

(** ** A concrete interpreter for evaluation

    The tables of CPython 3.11 (Unicode 14) on the code points below 256
    and on the combining diacritical marks U+0300 to U+036F; strings of
    other code points are outside what [latin1] describes. It serves to
    evaluate the program on concrete inputs. *)

Module Latin1.

Definition decimal_value (c : N) : option N :=
  if ((48 <=? c) && (c <=? 57))%N then Some (c - 48)%N else None.

Definition is_space (c : N) : bool :=
  existsb (N.eqb c) [9; 10; 11; 12; 13; 28; 29; 30; 31; 32; 133; 160]%N.

Definition in_range (c lo hi : N) : bool := ((lo <=? c) && (c <=? hi))%N.

Definition is_word (c : N) : bool :=
  existsb (fun r => in_range c (fst r) (snd r))
    [(48, 57); (65, 90); (95, 95); (97, 122); (170, 170); (178, 179);
     (181, 181); (185, 186); (188, 190); (192, 214); (216, 246);
     (248, 255)]%N.

Definition lower_char (c : N) : N :=
  if in_range c 65 90 || in_range c 192 214 || in_range c 216 222
  then (c + 32)%N else c.

Definition lower (s : str) : str := map lower_char s.

(** The compatibility decomposition of one code point. *)
Definition decompose (c : N) : str :=
  match c with
  | 160 => [32] | 168 => [32; 776] | 170 => [97] | 175 => [32; 772]
  | 178 => [50] | 179 => [51] | 180 => [32; 769] | 181 => [956]
  | 184 => [32; 807] | 185 => [49] | 186 => [111] | 188 => [49; 8260; 52]
  | 189 => [49; 8260; 50] | 190 => [51; 8260; 52] | 192 => [65; 768]
  | 193 => [65; 769] | 194 => [65; 770] | 195 => [65; 771] | 196 => [65; 776]
  | 197 => [65; 778] | 199 => [67; 807] | 200 => [69; 768] | 201 => [69; 769]
  | 202 => [69; 770] | 203 => [69; 776] | 204 => [73; 768] | 205 => [73; 769]
  | 206 => [73; 770] | 207 => [73; 776] | 209 => [78; 771] | 210 => [79; 768]
  | 211 => [79; 769] | 212 => [79; 770] | 213 => [79; 771] | 214 => [79; 776]
  | 217 => [85; 768] | 218 => [85; 769] | 219 => [85; 770] | 220 => [85; 776]
  | 221 => [89; 769] | 224 => [97; 768] | 225 => [97; 769] | 226 => [97; 770]
  | 227 => [97; 771] | 228 => [97; 776] | 229 => [97; 778] | 231 => [99; 807]
  | 232 => [101; 768] | 233 => [101; 769] | 234 => [101; 770]
  | 235 => [101; 776] | 236 => [105; 768] | 237 => [105; 769]
  | 238 => [105; 770] | 239 => [105; 776] | 241 => [110; 771]
  | 242 => [111; 768] | 243 => [111; 769] | 244 => [111; 770]
  | 245 => [111; 771] | 246 => [111; 776] | 249 => [117; 768]
  | 250 => [117; 769] | 251 => [117; 770] | 252 => [117; 776]
  | 253 => [121; 769] | 255 => [121; 776]
  | _ => [c]
  end%N.

Definition nfkd (s : str) : str := flat_map decompose s.

(** Only whether the class is zero matters to the program; 230 stands
    for every non-zero class of the block, and U+034F has class zero. *)
Definition combining (c : N) : N :=
  if in_range c 768 879 && negb (N.eqb c 847) then 230%N else 0%N.

Definition int_max_str_digits : nat := 4300.

Lemma ascii_decimal c : (c < 128)%N ->
  decimal_value c =
    if ((48 <=? c) && (c <=? 57))%N then Some (c - 48)%N else None.
Proof. reflexivity. Qed.

Lemma space_not_decimal c : is_space c = true -> decimal_value c = None.
Proof.
  unfold is_space, decimal_value. simpl. intros H.
  repeat (apply orb_true_iff in H; destruct H as [H | H]);
    try discriminate; apply N.eqb_eq in H; subst c; reflexivity.
Qed.

Lemma int_limit_range :
  int_max_str_digits = 0%nat \/ (640 <= int_max_str_digits)%nat.
Proof. right. unfold int_max_str_digits. lia. Qed.

End Latin1.

Definition latin1 : PyRuntime :=
  {| decimal_value := Latin1.decimal_value;
     is_space := Latin1.is_space;
     is_word := Latin1.is_word;
     lower := Latin1.lower;
     nfkd := Latin1.nfkd;
     combining := Latin1.combining;
     int_max_str_digits := Latin1.int_max_str_digits;
     ascii_decimal := Latin1.ascii_decimal;
     space_not_decimal := Latin1.space_not_decimal;
     int_limit_range := Latin1.int_limit_range |}.

(** A stand-in for reportlab, for evaluation: Helvetica names, a
    fixed-pitch [stringWidth] of 0.6 em per character, and a Code 128
    renderer in code set B (11 modules per character, 35 for start,
    checksum and stop) with quiet zones of [max(18, 10 * barWidth)] on
    both sides. The page is A4 in points: 210 mm by 297 mm at 72/25.4
    points per millimetre. *)
Definition demo_backend : Backend :=
  {| A4 := (75600 # 127, 106920 # 127);
     FONT_REGULAR := lit "Helvetica";
     FONT_BOLD := lit "Helvetica-Bold";
     stringWidth := fun text _ size =>
       inject_Z (Z.of_nat (length text)) * inject_Z size * 0.6;
     code128 := fun value barHeight barWidth =>
       let modules := inject_Z (11 * Z.of_nat (length value) + 35) in
       let quiet := if Qgtb (10 * barWidth) 18 then 10 * barWidth else 18 in
       (barWidth * modules + 2 * quiet, barHeight) |}.

(** ** Vocabulary of the statements *)

(** The digits of an input that may be absent. *)
Definition digits_of (R : PyRuntime) (s : option str) : str :=
  match s with
  | Some v => remove_non_digits R v
  | None => []
  end.

(** The number that a string of decimal digits denotes. *)
Fixpoint digits_value_from (R : PyRuntime) (acc : Z) (ds : str) : Z :=
  match ds with
  | [] => acc
  | c :: ds' =>
      digits_value_from R
        (10 * acc + Z.of_N (match decimal_value R c with Some d => d | None => 0 end))
        ds'
  end.

Definition digits_value (R : PyRuntime) (ds : str) : Z := digits_value_from R 0 ds.

(** [k_total] when [sanitize_numeric_keep_zeros] has returned [ds]. *)
Definition total_of_digits (R : PyRuntime) (ds : str) : Z :=
  if over_limit R (length ds) then 1%Z else Z.max 1 (digits_value R ds).

(** What [find_idx] promises: [idx] is the position of the first cell of
    [normalized] that some pattern matches, or [None] when no cell is
    matched. *)
Definition first_match (R : PyRuntime) (patterns : list pattern)
  (normalized : list str) (idx : option Z) : Prop :=
  match idx with
  | Some j =>
      (0 <= j)%Z /\
      (exists h, nth_error normalized (Z.to_nat j) = Some h /\
                 any_match R patterns h = true) /\
      (forall k h, (k < Z.to_nat j)%nat -> nth_error normalized k = Some h ->
                   any_match R patterns h = false)
  | None => forall h, In h normalized -> any_match R patterns h = false
  end.

(** The factor of the width clamp and of the height clamp: the quotient
    when the clamp applies, and 1 when it does not. *)
Definition clamp_factor (size target : Q) : Q :=
  if Qgtb size target then target / size else 1.

(** The carton cell of a data row. *)
Definition carton_cell (colmap : ColumnMap) (row : list str) : str :=
  get_cell row (carton colmap) (lit "1").

(** The label of a data row for one carton number: every field but
    [carton_no] comes from the row. *)
Definition label_of_row (colmap : ColumnMap) (row : list str) (carton_no : str)
  : label :=
  {| company_raw := get_cell row (company colmap) (lit "COMPANY_NAME");
     artikel_raw := get_cell row (article colmap) (lit EmptyString);
     qty_raw := get_cell row (quantity colmap) (lit "0");
     batch_raw := get_cell row (batch colmap) (lit "1");
     order_raw := get_cell row (order colmap) (lit EmptyString);
     carton_no := carton_no |}.

(** The rows that the loop of [run_csv] does not skip. *)
Definition kept_rows (R : PyRuntime) (rows : list (list str)) : list (list str) :=
  filter (fun row => negb (is_blank_row R row)) rows.

(** The values of the barcodes drawn on a page, in order. *)
Definition barcode_values (ops : list op) : list str :=
  flat_map (fun o => match o with
                     | DrawBarcode v _ _ _ _ => [v]
                     | _ => []
                     end) ops.

(** The digits of the quantity as the payload carries them. *)
Definition qty_digits_of (R : PyRuntime) (a : label) : str :=
  if is_empty (remove_non_digits R (qty_raw a)) then lit "0"
  else remove_non_digits R (qty_raw a).

(** The quantity as the Quantity row shows it. *)
Definition quantity_display_of (R : PyRuntime) (a : label) : str :=
  match lstrip_char 48 (qty_digits_of R a) with
  | [] => lit "0"
  | s2 => s2
  end.

(** [barcode_data] of a call of [generate_pdf]. *)
Definition payload_of (R : PyRuntime) (a : label) : str :=
  barcode_payload
    (sanitize_any R (Some (artikel_raw a)) (Some (lit EmptyString)))
    (sanitize_numeric_keep_zeros R (Some (qty_raw a)) (Some (lit "0")))
    (sanitize_any R (Some (batch_raw a)) (Some (lit "1")))
    (carton_no a).

(** ** Inputs for evaluation *)

(** The German header with an accented and capitalised quantity column. *)
Definition german_header : list str :=
  [ lit "Firma"; lit "Artikel-Nr"; lit "St" ++ [252%N] ++ lit "ckzahl";
    lit "Chargen-Nr"; lit "Bestell-Nr"; lit "Karton-Nr" ].

(** The header and the data row of the end-to-end example, with three
    cartons. *)
Definition demo_header : list str :=
  [ lit "Company"; lit "Artikel"; lit "Quantity"; lit "Chargen";
    lit "Bestell"; lit "Karton" ].

Definition demo_row (karton : string) : list str :=
  [ lit "Acme"; lit "SKU123"; lit "045"; lit "7"; lit "PO-9"; lit karton ].

Definition demo_colmap : ColumnMap := build_column_map latin1 demo_header.

(** The call for the first carton of the end-to-end example. *)
Definition demo_label : label := label_of_row demo_colmap (demo_row "2") (lit "1").

(** ** Font setup at import time (lines 25 to 46)

    [regular_exists] and [bold_exists] are the two [os.path.exists]
    tests; [register_ok name] tells whether building and registering the
    font of that name succeeds, the other outcome being an exception. The
    result is the list of registered names and the two module globals. *)

Definition builtin_regular : str := lit "Helvetica".
Definition builtin_bold : str := lit "Helvetica-Bold".
Definition custom_regular : str := lit "HelveticaCustom".
Definition custom_bold : str := lit "HelveticaCustom-Bold".

Record fonts := {
  registry : list str;
  font_regular : str;
  font_bold : str
}.

(** The [except] branch: back to the built-in names. *)
Definition font_fallback (registry : list str) : fonts :=
  {| registry := registry;
     font_regular := builtin_regular;
     font_bold := builtin_bold |}.

(** The second [if] of the [try] block, entered with the registry and
    [FONT_REGULAR] the first one left. *)
Definition font_setup_bold (bold_exists : bool) (register_ok : str -> bool)
  (registry : list str) (regular : str) : fonts :=
  if bold_exists then
    if register_ok custom_bold then
      {| registry := registry ++ [custom_bold];
         font_regular := regular;
         font_bold := custom_bold |}
    else font_fallback registry
  else if list_eq_dec N.eq_dec regular custom_regular then
    {| registry := registry; font_regular := regular; font_bold := custom_regular |}
  else
    {| registry := registry; font_regular := regular; font_bold := builtin_bold |}.

Definition font_setup (regular_exists bold_exists : bool)
  (register_ok : str -> bool) : fonts :=
  if regular_exists then
    if register_ok custom_regular then
      font_setup_bold bold_exists register_ok [custom_regular] custom_regular
    else font_fallback []
  else font_setup_bold bold_exists register_ok [] builtin_regular.

(** The length of a string as a binary number. *)
Definition length_N (s : str) : N := N.of_nat (length s).

(** ** Further vocabulary *)

(** One component of the file name: cleaned, then cut to [max_len]. *)
Definition component (R : PyRuntime) (value : option str) (default : string)
  (max_len : Z) : str :=
  truncate_component
    (Some (match safe_filename_component R value (Some (lit default)) with
           | Ok s => s
           | Raise _ => []
           end)) max_len.

(** [pdf_file] of a call of [generate_pdf]. *)
Definition file_name (R : PyRuntime) (a : label) : str :=
  component R (sanitize_any R (Some (company_raw a)) (Some (lit "COMPANY_NAME")))
    "Company" 40 ++
  lit " - Order " ++
  component R (sanitize_any R (Some (order_raw a)) (Some (lit EmptyString)))
    "NoOrderNo" 40 ++
  lit ", Batch " ++
  component R (sanitize_any R (Some (batch_raw a)) (Some (lit "1"))) "Batch" 20 ++
  lit ", Box " ++ carton_no a ++ lit ".pdf".

(** The company name as the header row draws it. *)
Definition company_of (R : PyRuntime) (a : label) : str :=
  if is_empty (strip R (company_raw a)) then lit "COMPANY_NAME"
  else strip R (company_raw a).

(** The frame of the label on a page: left, bottom, width, height. *)
Definition frame_of (B : Backend) : Q * Q * Q * Q :=
  let '(page_w, page_h) := A4 B in
  (36, (page_h - (page_h - 140)) / 2, page_w - 2 * 36, page_h - 140).

(** The top of row [i], counted from the header row. *)
Fixpoint row_top_of (B : Backend) (i : nat) : Q :=
  match i with
  | O => let '(_, label_y, _, label_h) := frame_of B in label_y + label_h
  | S j => row_top_of B j - row_height j
  end.

(** The page of a call of [generate_pdf], given the operations of its
    barcode row. *)
Definition page_with (R : PyRuntime) (B : Backend) (a : label)
  (barcode : list op) : list op :=
  let '(label_x, label_y, label_w, label_h) := frame_of B in
  let col1_w := label_w * 0.45 in
  let col2_w := label_w - col1_w in
  let font_size :=
    shrink_to_fit (stringWidth B (company_of R a) (FONT_BOLD B))
      (label_w - 24) 12 42 in
  [ SetLineWidth 3; Rect label_x label_y label_w label_h; SetLineWidth 1.5 ] ++
  [ Rect label_x (row_top_of B 0 - row_height 0) label_w (row_height 0);
    SetFont (FONT_BOLD B) font_size;
    DrawCentredString (label_x + label_w / 2)
      (row_top_of B 0 - row_height 0 / 2 - (inject_Z font_size * 0.33))
      (company_of R a) ] ++
  draw_row B label_x col1_w col2_w (row_top_of B 1) (row_height 1)
    (lit "Article No.") (lit "(SKU)")
    (sanitize_any R (Some (artikel_raw a)) (Some (lit EmptyString))) true ++
  draw_row B label_x col1_w col2_w (row_top_of B 2) (row_height 2)
    (lit "Quantity") (lit "(Per box)") (Some (quantity_display_of R a)) false ++
  barcode ++
  draw_row B label_x col1_w col2_w (row_top_of B 4) (row_height 4)
    (lit "Order Index") (lit "(Nth item in your order)")
    (sanitize_any R (Some (batch_raw a)) (Some (lit "1"))) true ++
  draw_row B label_x col1_w col2_w (row_top_of B 5) (row_height 5)
    (lit "Order No.") (lit "(Your order number)")
    (sanitize_any R (Some (order_raw a)) (Some (lit EmptyString))) true ++
  draw_row B label_x col1_w col2_w (row_top_of B 6) (row_height 6)
    (lit "Box No.") (lit "(Nth box for this Article No.)")
    (Some (carton_no a)) false ++
  [Save].

(** The rectangles drawn on a page: left, bottom, width, height. *)
Definition rects (ops : list op) : list (Q * Q * Q * Q) :=
  flat_map (fun o => match o with
                     | Rect x y w h => [(x, y, w, h)]
                     | _ => []
                     end) ops.

(** The texts drawn on a page, in order. *)
Definition texts (ops : list op) : list str :=
  flat_map (fun o => match o with
                     | DrawString _ _ text => [text]
                     | DrawCentredString _ _ text => [text]
                     | _ => []
                     end) ops.

(** The fonts set on a page, in order: name and size. *)
Definition fonts_set (ops : list op) : list (str * Z) :=
  flat_map (fun o => match o with
                     | SetFont font size => [(font, size)]
                     | _ => []
                     end) ops.

(** A rectangle within a frame. *)
Definition within (frame r : Q * Q * Q * Q) : Prop :=
  let '(fx, fy, fw, fh) := frame in
  let '(x, y, w, h) := r in
  fx <= x /\ x + w <= fx + fw /\ fy <= y /\ y + h <= fy + fh.

(** The calls of [generate_pdf] that [run_csv] makes on the rows of a
    file when none raises: the labels of the data rows under the column
    map of the header. *)
Definition csv_labels (R : PyRuntime) (rows : list (list str)) : list label :=
  match kept_rows R rows with
  | [] => []
  | h :: data => flat_map (row_labels R (build_column_map R h)) data
  end.

(** The character before a position: [prev] at the start of [s], else the
    last character of [s]. *)
Definition prev_after (prev : option N) (s : str) : option N :=
  fold_left (fun _ c => Some c) s prev.

(** The six positions of a column map. *)
Definition positions (colmap : ColumnMap) : list (option Z) :=
  [ company colmap; article colmap; quantity colmap; batch colmap;
    order colmap; carton colmap ].

(** A string made of whitespace. *)
Definition all_space (R : PyRuntime) (s : str) : Prop :=
  Forall (fun c => is_space R c = true) s.

(** The stand-in backend, except that a payload ending in the digit 2
    renders with width zero. *)
Definition failing_backend : Backend :=
  {| A4 := A4 demo_backend;
     FONT_REGULAR := FONT_REGULAR demo_backend;
     FONT_BOLD := FONT_BOLD demo_backend;
     stringWidth := stringWidth demo_backend;
     code128 := fun value barHeight barWidth =>
       if N.eqb (last value 0%N) 50 then (0, barHeight)
       else code128 demo_backend value barHeight barWidth |}.

(** * Properties *)

Unset Implicit Arguments.

(** ** Strings and stripping *)

Lemma lit_0 : lit "0" = [48%N].
Proof. reflexivity. Qed.

Lemma is_empty_nil (s : str) : is_empty s = true <-> s = [].
Proof. destruct s; simpl; split; congruence. Qed.

Lemma lstrip_char_nil c s : lstrip_char c s = [] <-> Forall (eq c) s.
Proof.
  induction s as [| x s IH]; simpl.
  - split; auto.
  - destruct (N.eqb_spec x c) as [-> | Hne].
    + rewrite IH. split; intros H.
      * constructor; auto.
      * inversion H; auto.
    + split; intros H; [discriminate | inversion H; congruence].
Qed.

Lemma lstrip_char_head c s x t : lstrip_char c s = x :: t -> x <> c.
Proof.
  induction s as [| y s IH]; simpl; [discriminate |].
  destruct (N.eqb_spec y c) as [-> | Hne]; auto.
  intros H. inversion H. subst. exact Hne.
Qed.

Section SanitizerFacts.

Variable R : PyRuntime.

Lemma is_decimal_space c : is_space R c = true -> is_decimal R c = false.
Proof.
  intros H. unfold is_decimal. rewrite (space_not_decimal R c H). reflexivity.
Qed.

Lemma filter_lstrip (f : N -> bool) s :
  (forall c, is_space R c = true -> f c = false) ->
  filter f (lstrip R s) = filter f s.
Proof.
  intros Hf. induction s as [| c s IH]; simpl; [reflexivity |].
  destruct (is_space R c) eqn:Hc; simpl.
  - rewrite (Hf c Hc). exact IH.
  - reflexivity.
Qed.

Lemma filter_rev {A} (f : A -> bool) (l : list A) :
  filter f (rev l) = rev (filter f l).
Proof.
  induction l as [| x l IH]; simpl; [reflexivity |].
  rewrite filter_app, IH. simpl. destruct (f x); simpl.
  - reflexivity.
  - rewrite app_nil_r. reflexivity.
Qed.

Lemma filter_strip (f : N -> bool) s :
  (forall c, is_space R c = true -> f c = false) ->
  filter f (strip R s) = filter f s.
Proof.
  intros Hf. unfold strip, rstrip.
  rewrite filter_rev, (filter_lstrip _ _ Hf), filter_rev, rev_involutive.
  apply filter_lstrip, Hf.
Qed.

(** Stripping keeps every digit: the digits of a cell are those of the
    stripped cell. *)
Lemma remove_non_digits_strip s :
  remove_non_digits R (strip R s) = remove_non_digits R s.
Proof. apply filter_strip, is_decimal_space. Qed.

Lemma sanitize_numeric_keep_zeros_digits v d :
  sanitize_numeric_keep_zeros R (Some v) (Some d) =
    Some (if is_empty (remove_non_digits R v) then d else remove_non_digits R v).
Proof.
  unfold sanitize_numeric_keep_zeros. rewrite remove_non_digits_strip.
  destruct (is_empty (remove_non_digits R v)); reflexivity.
Qed.

End SanitizerFacts.

Lemma strip_leading_zeros_keep_zero_eq (R : PyRuntime) (s : option str) :
  strip_leading_zeros_keep_zero R s =
    Ok (match lstrip_char 48 (digits_of R s) with
        | [] => lit "0"
        | s2 => s2
        end).
Proof.
  unfold strip_leading_zeros_keep_zero.
  destruct s as [v |]; simpl digits_of; [| reflexivity].
  rewrite sanitize_numeric_keep_zeros_digits.
  destruct (remove_non_digits R v) as [| x ds]; [reflexivity |].
  change (is_empty (x :: ds)) with false. cbv iota zeta.
  destruct (lstrip_char 48 (x :: ds)); reflexivity.
Qed.

(** C6: for every input, absent included, [strip_leading_zeros_keep_zero]
    returns a string that is never empty; the result is the one-character
    string 0 exactly when every digit of the input is the character 0
    (which covers an input without digits), and otherwise it is the digit
    string of the input without its leading 0 characters. *)
Theorem strip_leading_zeros_keep_zero_spec (R : PyRuntime) (s : option str) :
  exists r,
    strip_leading_zeros_keep_zero R s = Ok r /\
    r <> [] /\
    (r = lit "0" <-> Forall (eq 48%N) (digits_of R s)) /\
    (~ Forall (eq 48%N) (digits_of R s) -> r = lstrip_char 48 (digits_of R s)).
Proof.
  rewrite strip_leading_zeros_keep_zero_eq.
  destruct (lstrip_char 48 (digits_of R s)) as [| y t] eqn:Hs.
  - exists (lit "0"). apply lstrip_char_nil in Hs. rewrite lit_0.
    split; [reflexivity |]. split; [discriminate |].
    split; [tauto | intros H; contradiction].
  - exists (y :: t).
    assert (Hnot : ~ Forall (eq 48%N) (digits_of R s)).
    { intros H. apply lstrip_char_nil in H. congruence. }
    pose proof (lstrip_char_head _ _ _ _ Hs) as Hy.
    split; [reflexivity |]. split; [discriminate |].
    split; [| reflexivity].
    rewrite lit_0. split; intros H; [| contradiction].
    inversion H. congruence.
Qed.

(** ** Totality of the sanitizers *)

Section SanitizerTotality.

Variable R : PyRuntime.

Lemma sanitize_any_some value d :
  exists s, sanitize_any R value (Some d) = Some s.
Proof.
  destruct value as [v |]; simpl; [| eauto].
  destruct (negb (is_empty (strip R v))); eauto.
Qed.

Lemma sanitize_numeric_keep_zeros_some value d :
  exists s, sanitize_numeric_keep_zeros R value (Some d) = Some s.
Proof.
  destruct value as [v |]; simpl; [| eauto].
  destruct (negb (is_empty (remove_non_digits R (strip R v)))); eauto.
Qed.

Lemma py_or_some a d : exists s, py_or a (Some d) = Some s.
Proof.
  unfold py_or. destruct a as [x |]; simpl; [| eauto].
  destruct (negb (is_empty x)); eauto.
Qed.

Lemma safe_filename_component_ok value d :
  exists s, safe_filename_component R value (Some d) = Ok s.
Proof.
  unfold safe_filename_component.
  destruct (py_or_some (sanitize_any R value (Some d)) d) as [s ->]. eauto.
Qed.

Lemma safe_filename_component_none d :
  safe_filename_component R None (Some d) =
    Ok (strip R (collapse_ws R (replace_unsafe d))).
Proof.
  unfold safe_filename_component, py_or. simpl.
  destruct (negb (is_empty d)); reflexivity.
Qed.

End SanitizerTotality.

(** C9: every sanitizer returns a string and raises nothing, for every
    value (a string or [None]) and every string default. On [None] the two
    plain sanitizers return the default, [strip_leading_zeros_keep_zero]
    returns its own default 0, [truncate_component] the empty string, and
    [safe_filename_component] the default cleaned like any other value;
    what [truncate_component] returns is a prefix of its argument. *)
Theorem sanitizers_total (R : PyRuntime) (value : option str) (default : str)
  (max_len : Z) :
  (exists s, sanitize_numeric_keep_zeros R value (Some default) = Some s) /\
  sanitize_numeric_keep_zeros R None (Some default) = Some default /\
  (exists s, sanitize_any R value (Some default) = Some s) /\
  sanitize_any R None (Some default) = Some default /\
  (exists s, strip_leading_zeros_keep_zero R value = Ok s) /\
  strip_leading_zeros_keep_zero R None = Ok (lit "0") /\
  (exists s, safe_filename_component R value (Some default) = Ok s) /\
  safe_filename_component R None (Some default) =
    Ok (strip R (collapse_ws R (replace_unsafe default))) /\
  (forall v, exists rest, v = truncate_component (Some v) max_len ++ rest) /\
  truncate_component None max_len = [].
Proof.
  split; [apply sanitize_numeric_keep_zeros_some |].
  split; [reflexivity |].
  split; [apply sanitize_any_some |].
  split; [reflexivity |].
  split; [rewrite strip_leading_zeros_keep_zero_eq; eauto |].
  split; [reflexivity |].
  split; [apply safe_filename_component_ok |].
  split; [apply safe_filename_component_none |].
  split; [| reflexivity].
  intros v. unfold truncate_component, slice_to.
  destruct (Z.of_nat (length v) <=? max_len)%Z.
  - exists []. symmetry. apply app_nil_r.
  - destruct (max_len <? 0)%Z;
      eexists; symmetry; apply firstn_skipn.
Qed.

(** ** Shrink-to-fit *)

Lemma Qgtb_false a b : Qgtb a b = false <-> a <= b.
Proof.
  unfold Qgtb. rewrite negb_false_iff. apply Qle_bool_iff.
Qed.

Lemma Qgtb_true a b : Qgtb a b = true <-> b < a.
Proof.
  unfold Qgtb. rewrite negb_true_iff. split; intros H.
  - apply Qnot_le_lt. intros Hle. apply Qle_bool_iff in Hle. congruence.
  - destruct (Qle_bool a b) eqn:E; [| reflexivity].
    apply Qle_bool_iff in E. exfalso. apply (Qlt_not_le _ _ H E).
Qed.

Section ShrinkToFit.

Variable width_at : Z -> Q.
Variable available_w : Q.
Variable min_font : Z.

(** The function is the loop: one test, and one decrement when it holds. *)
Lemma shrink_to_fit_loop font_size :
  shrink_to_fit width_at available_w min_font font_size =
    if shrink_cond width_at available_w min_font font_size
    then shrink_to_fit width_at available_w min_font (font_size - 1)
    else font_size.
Proof.
  unfold shrink_cond. rewrite shrink_to_fit_equation_1.
  destruct (Z_gt_dec font_size min_font) as [Hgt | Hle]; simpl.
  - rewrite (proj2 (Z.gtb_gt _ _) Hgt). simpl.
    destruct (Qgtb (width_at font_size) available_w); reflexivity.
  - destruct (font_size >? min_font)%Z eqn:E; [| reflexivity].
    apply Z.gtb_gt in E. contradiction.
Qed.

Lemma shrink_to_fit_run (k : nat) : forall font_size,
  (font_size - min_font <= Z.of_nat k)%Z ->
  exists n,
    shrink_run width_at available_w min_font font_size n
      (shrink_to_fit width_at available_w min_font font_size) /\
    (Z.of_nat n <= Z.max 0 (font_size - min_font))%Z /\
    shrink_to_fit width_at available_w min_font font_size
      = (font_size - Z.of_nat n)%Z.
Proof.
  induction k as [| k IH]; intros s Hk;
    rewrite shrink_to_fit_loop;
    destruct (shrink_cond width_at available_w min_font s) eqn:Hc.
  - apply andb_true_iff in Hc. destruct Hc as [Hgt _].
    apply Z.gtb_gt in Hgt. lia.
  - exists 0%nat. split; [constructor; exact Hc |]. split; simpl; lia.
  - pose proof Hc as Hc'. apply andb_true_iff in Hc'. destruct Hc' as [Hgt _].
    apply Z.gtb_gt in Hgt.
    destruct (IH (s - 1)%Z) as [n [Hrun [Hn Heq]]]; [lia |].
    exists (S n). split; [econstructor; eassumption |]. split; lia.
  - exists 0%nat. split; [constructor; exact Hc |]. split; simpl; lia.
Qed.

(** When the loop ends, its condition is false. *)
Lemma shrink_run_exit s n s' :
  shrink_run width_at available_w min_font s n s' ->
  shrink_cond width_at available_w min_font s' = false.
Proof. induction 1; assumption. Qed.

(** The loop is deterministic. *)
Lemma shrink_run_deterministic s n1 s1 n2 s2 :
  shrink_run width_at available_w min_font s n1 s1 ->
  shrink_run width_at available_w min_font s n2 s2 ->
  n1 = n2 /\ s1 = s2.
Proof.
  intros H1. revert n2 s2.
  induction H1 as [s Hc | s n s' Hc Hrun IH]; intros n2 s2 H2;
    inversion H2; subst; try congruence; auto.
  match goal with
  | Hr : shrink_run _ _ _ (s - 1)%Z _ _ |- _ =>
      destruct (IH _ _ Hr) as [-> ->]
  end.
  auto.
Qed.

Lemma shrink_to_fit_result font_size :
  (min_font <= font_size)%Z ->
  exists n,
    shrink_run width_at available_w min_font font_size n
      (shrink_to_fit width_at available_w min_font font_size) /\
    (Z.of_nat n <= font_size - min_font)%Z /\
    shrink_to_fit width_at available_w min_font font_size
      = (font_size - Z.of_nat n)%Z /\
    (width_at (shrink_to_fit width_at available_w min_font font_size)
       <= available_w \/
     shrink_to_fit width_at available_w min_font font_size = min_font).
Proof.
  intros Hle.
  destruct (shrink_to_fit_run (Z.to_nat (font_size - min_font)) font_size)
    as [n [Hrun [Hn Heq]]]; [lia |].
  exists n. split; [exact Hrun |]. split; [lia |]. split; [exact Heq |].
  pose proof (shrink_run_exit _ _ _ Hrun) as Hc.
  apply andb_false_iff in Hc. destruct Hc as [Hc | Hc].
  - right. rewrite Z.gtb_ltb in Hc. apply Z.ltb_ge in Hc. lia.
  - left. apply Qgtb_false. exact Hc.
Qed.

End ShrinkToFit.

(** The two loops of [generate_pdf]: the header from 42 down to 12, the
    value cells of [draw_row] from 36 down to 8. *)
Lemma header_font_size_fits (B : Backend) (company : str) (available_w : Q) :
  let width_at := stringWidth B company (FONT_BOLD B) in
  let font_size := shrink_to_fit width_at available_w 12 42 in
  (12 <= font_size <= 42)%Z /\
  (width_at font_size <= available_w \/ font_size = 12%Z).
Proof.
  cbv zeta.
  destruct (shrink_to_fit_result (stringWidth B company (FONT_BOLD B))
              available_w 12 42) as [n [_ [Hn [Heq Hfit]]]]; [lia |].
  split; [lia | exact Hfit].
Qed.

Lemma value_font_size_fits (B : Backend) (value : str) (available_w_val : Q) :
  let width_at := stringWidth B value (FONT_BOLD B) in
  let font_size_val := shrink_to_fit width_at available_w_val 8 36 in
  (8 <= font_size_val <= 36)%Z /\
  (width_at font_size_val <= available_w_val \/ font_size_val = 8%Z).
Proof.
  cbv zeta.
  destruct (shrink_to_fit_result (stringWidth B value (FONT_BOLD B))
              available_w_val 8 36) as [n [_ [Hn [Heq Hfit]]]]; [lia |].
  split; [lia | exact Hfit].
Qed.

(** C5: the shrink-to-fit loop, entered at a size not below its floor,
    takes one unit off the size at each iteration, ends after at most
    size minus floor iterations, and ends either with the measured width
    within the available width or at the floor; it returns a size in
    every case, also when the text is too wide at the floor. *)
Theorem shrink_to_fit_terminates (width_at : Z -> Q) (available_w : Q)
  (min_font font_size : Z) :
  (min_font <= font_size)%Z ->
  exists n,
    shrink_run width_at available_w min_font font_size n
      (shrink_to_fit width_at available_w min_font font_size) /\
    (Z.of_nat n <= font_size - min_font)%Z /\
    shrink_to_fit width_at available_w min_font font_size
      = (font_size - Z.of_nat n)%Z /\
    (width_at (shrink_to_fit width_at available_w min_font font_size)
       <= available_w \/
     shrink_to_fit width_at available_w min_font font_size = min_font).
Proof.
  intros Hle.
  destruct (shrink_to_fit_run width_at available_w min_font
              (Z.to_nat (font_size - min_font)) font_size)
    as [n [Hrun [Hn Heq]]]; [lia |].
  exists n. split; [exact Hrun |]. split; [lia |]. split; [exact Heq |].
  pose proof (shrink_run_exit _ _ _ _ _ _ Hrun) as Hc.
  unfold shrink_cond in Hc. apply andb_false_iff in Hc.
  destruct Hc as [Hc | Hc].
  - right. rewrite Z.gtb_ltb in Hc. apply Z.ltb_ge in Hc. lia.
  - left. apply Qgtb_false. exact Hc.
Qed.

(** The header loop on a forty-character name with the stand-in metrics:
    the hypothesis holds and the theorem applies. *)
Lemma shrink_to_fit_terminates_witness :
  (12 <= 42)%Z /\
  exists n,
    shrink_run (stringWidth demo_backend (repeat 65%N 40) (FONT_BOLD demo_backend))
      400 12 42 n
      (shrink_to_fit
         (stringWidth demo_backend (repeat 65%N 40) (FONT_BOLD demo_backend))
         400 12 42) /\
    (Z.of_nat n <= 42 - 12)%Z /\
    shrink_to_fit
      (stringWidth demo_backend (repeat 65%N 40) (FONT_BOLD demo_backend))
      400 12 42 = (42 - Z.of_nat n)%Z /\
    (stringWidth demo_backend (repeat 65%N 40) (FONT_BOLD demo_backend)
       (shrink_to_fit
          (stringWidth demo_backend (repeat 65%N 40) (FONT_BOLD demo_backend))
          400 12 42) <= 400 \/
     shrink_to_fit
       (stringWidth demo_backend (repeat 65%N 40) (FONT_BOLD demo_backend))
       400 12 42 = 12%Z).
Proof.
  split; [lia |].
  apply (shrink_to_fit_terminates
           (stringWidth demo_backend (repeat 65%N 40) (FONT_BOLD demo_backend))
           400 12 42).
  lia.
Defined.

(** Forty characters at 0.6 em fit 400 points from size 16 down; sixty
    characters never fit and stay at the floor. *)
Example shrink_to_fit_header_16 :
  shrink_to_fit (stringWidth demo_backend (repeat 65%N 40) (FONT_BOLD demo_backend))
    400 12 42 = 16%Z.
Proof. vm_compute. reflexivity. Qed.

Example shrink_to_fit_header_floor :
  shrink_to_fit (stringWidth demo_backend (repeat 65%N 60) (FONT_BOLD demo_backend))
    400 12 42 = 12%Z.
Proof. vm_compute. reflexivity. Qed.

(** ** Barcode sizing *)

Lemma checked_div_ok a b : ~ b == 0 -> checked_div a b = Ok (a / b).
Proof.
  intros Hb. unfold checked_div.
  destruct (Qeq_bool b 0) eqn:E; [| reflexivity].
  apply Qeq_bool_iff in E. contradiction.
Qed.


Lemma clamp_factor_range size target :
  0 < target -> 0 < clamp_factor size target <= 1.
Proof.
  intros Ht. unfold clamp_factor.
  destruct (Qgtb size target) eqn:E.
  - apply Qgtb_true in E.
    assert (Hs : 0 < size) by lra.
    split.
    + apply Qlt_shift_div_l; lra.
    + apply Qle_shift_div_r; lra.
  - lra.
Qed.

Lemma clamp_factor_fits size target :
  0 < target -> size * clamp_factor size target <= target.
Proof.
  intros Ht. unfold clamp_factor.
  destruct (Qgtb size target) eqn:E.
  - apply Qgtb_true in E.
    assert (Hs : ~ size == 0) by lra.
    assert (Heq : size * (target / size) == target) by (field; exact Hs).
    rewrite Heq. lra.
  - apply Qgtb_false in E. lra.
Qed.

Lemma clamp_width_spec size_width_target w h :
  0 < size_width_target ->
  exists w' h',
    clamp_width size_width_target (w, h) = Ok (w', h') /\
    w' == w * clamp_factor w size_width_target /\
    h' == h * clamp_factor w size_width_target.
Proof.
  intros Ht. unfold clamp_width, clamp_factor.
  destruct (Qgtb w size_width_target) eqn:E.
  - apply Qgtb_true in E.
    rewrite checked_div_ok by lra. simpl.
    eexists; eexists; split; [reflexivity |]. split; reflexivity.
  - exists w, h. split; [reflexivity |]. split; ring.
Qed.

Lemma clamp_height_spec size_height_target w h :
  0 < size_height_target ->
  exists w' h',
    clamp_height size_height_target (w, h) = Ok (w', h') /\
    w' == w * clamp_factor h size_height_target /\
    h' == h * clamp_factor h size_height_target.
Proof.
  intros Ht. unfold clamp_height, clamp_factor.
  destruct (Qgtb h size_height_target) eqn:E.
  - apply Qgtb_true in E.
    rewrite checked_div_ok by lra. simpl.
    eexists; eexists; split; [reflexivity |]. split; reflexivity.
  - exists w, h. split; [reflexivity |]. split; ring.
Qed.

Lemma Qgtb_comp a a' b b' : a == a' -> b == b' -> Qgtb a b = Qgtb a' b'.
Proof.
  intros Ha Hb. unfold Qgtb. f_equal.
  destruct (Qle_bool a b) eqn:E; symmetry.
  - apply Qle_bool_iff. apply Qle_bool_iff in E. rewrite <- Ha, <- Hb. exact E.
  - destruct (Qle_bool a' b') eqn:E'; [| reflexivity].
    apply Qle_bool_iff in E'. rewrite <- Ha, <- Hb in E'.
    apply Qle_bool_iff in E'. congruence.
Qed.

Lemma clamp_factor_comp a a' t : a == a' -> clamp_factor a t == clamp_factor a' t.
Proof.
  intros Ha. unfold clamp_factor.
  rewrite (Qgtb_comp a a' t t Ha (Qeq_refl t)).
  destruct (Qgtb a' t); [rewrite Ha |]; reflexivity.
Qed.

(** The sizes after both clamps, as the candidate sizes times the two
    factors; the second factor is computed from the height the first
    clamp left. *)
Lemma barcode_fit_ok size_width_init size_height_init
  size_width_target size_height_target :
  0 < size_width_init -> 0 < size_width_target -> 0 < size_height_target ->
  exists f,
    barcode_fit size_width_init size_height_init
      size_width_target size_height_target = Ok f /\
    let cw := fst (candidate size_width_init size_height_init size_width_target) in
    let ch := snd (candidate size_width_init size_height_init size_width_target) in
    let scale_w := clamp_factor cw size_width_target in
    let scale_h := clamp_factor (ch * scale_w) size_height_target in
    final_width f == cw * scale_w * scale_h /\
    final_height f == ch * scale_w * scale_h /\
    bar_width_final f =
      (if Qltb (initial_bar_width * (final_width f / size_width_init)) min_bar_width
       then min_bar_width
       else initial_bar_width * (final_width f / size_width_init)).
Proof.
  intros HW0 HWt HHt. unfold barcode_fit.
  destruct (candidate size_width_init size_height_init size_width_target)
    as [cw ch] eqn:Hcand.
  destruct (clamp_width_spec size_width_target cw ch HWt)
    as [w1 [h1 [E1 [Hw1 Hh1]]]].
  rewrite E1. cbn [bind].
  destruct (clamp_height_spec size_height_target w1 h1 HHt)
    as [w2 [h2 [E2 [Hw2 Hh2]]]].
  rewrite E2. cbn [bind fst snd].
  rewrite checked_div_ok by lra. cbn [bind].
  eexists. split; [reflexivity |]. cbn [final_width final_height bar_width_final fst snd].
  rewrite (clamp_factor_comp _ _ size_height_target Hh1) in Hw2, Hh2.
  split; [| split; [| reflexivity]].
  - rewrite Hw2, Hw1. reflexivity.
  - rewrite Hh2, Hh1. reflexivity.
Qed.

(** C2: for a baseline render of positive width and a target box of
    positive sizes the sizing returns; the width clamp comes first and the
    height clamp second, each multiplying width and height by one common
    factor (the quotient target/size when the size exceeds the target,
    else 1), the second factor being computed from the height the first
    clamp left; the final width and height both lie within the target
    box; the bar width is the baseline bar width times final width over
    baseline width, replaced by 0.2 when it falls below 0.2. *)
Theorem barcode_fit_clamps size_width_init size_height_init
  size_width_target size_height_target :
  0 < size_width_init -> 0 < size_width_target -> 0 < size_height_target ->
  exists f,
    barcode_fit size_width_init size_height_init
      size_width_target size_height_target = Ok f /\
    let cw := fst (candidate size_width_init size_height_init size_width_target) in
    let ch := snd (candidate size_width_init size_height_init size_width_target) in
    let scale_w := clamp_factor cw size_width_target in
    let scale_h := clamp_factor (ch * scale_w) size_height_target in
    final_width f == cw * scale_w * scale_h /\
    final_height f == ch * scale_w * scale_h /\
    final_width f <= size_width_target /\
    final_height f <= size_height_target /\
    bar_width_final f =
      (if Qltb (initial_bar_width * (final_width f / size_width_init)) min_bar_width
       then min_bar_width
       else initial_bar_width * (final_width f / size_width_init)).
Proof.
  intros HW0 HWt HHt.
  destruct (barcode_fit_ok size_width_init size_height_init
              size_width_target size_height_target HW0 HWt HHt)
    as [f [Ef [Hw [Hh Hb]]]].
  exists f. split; [exact Ef |]. cbv zeta in *.
  set (cw := fst (candidate size_width_init size_height_init size_width_target)) in *.
  set (ch := snd (candidate size_width_init size_height_init size_width_target)) in *.
  set (sw := clamp_factor cw size_width_target) in *.
  set (sh := clamp_factor (ch * sw) size_height_target) in *.
  split; [exact Hw |]. split; [exact Hh |].
  pose proof (clamp_factor_fits cw size_width_target HWt) as Hfw. fold sw in Hfw.
  pose proof (clamp_factor_fits (ch * sw) size_height_target HHt) as Hfh. fold sh in Hfh.
  pose proof (clamp_factor_range (ch * sw) size_height_target HHt) as Hsh. fold sh in Hsh.
  split; [| split; [| exact Hb]].
  - rewrite Hw. nra.
  - rewrite Hh. exact Hfh.
Qed.

(** The sizing of the payload SKU123|045|7|1 on an A4 page with the
    stand-in renderer: baseline render 262.8 by 40, target box
    (595.28 - 72 - 60) by 100. *)
Lemma barcode_fit_clamps_witness :
  0 < 1314 # 5 /\ 0 < 58836 # 127 /\ 0 < 100 /\
  exists f,
    barcode_fit (1314 # 5) 40 (58836 # 127) 100 = Ok f /\
    final_width f <= 58836 # 127 /\
    final_height f <= 100.
Proof.
  split; [reflexivity |]. split; [reflexivity |]. split; [reflexivity |].
  destruct (barcode_fit_clamps (1314 # 5) 40 (58836 # 127) 100)
    as [f [Ef [_ [_ [Hw [Hh _]]]]]]; try reflexivity.
  exists f. split; [exact Ef |]. split; assumption.
Defined.

Example demo_baseline_render :
  let initial_barcode :=
    code128 demo_backend (lit "SKU123|045|7|1") initial_bar_height initial_bar_width in
  fst initial_barcode == 1314 # 5 /\
  snd initial_barcode == 40 /\
  fst (A4 demo_backend) - 2 * 36 - 60 == 58836 # 127.
Proof. repeat split; reflexivity. Qed.

(** On that input both clamps apply and the result is 250 by 100, with a
    bar width above the floor. *)
Example barcode_fit_demo :
  exists f,
    barcode_fit (1314 # 5) 40 (58836 # 127) 100 = Ok f /\
    final_width f == 250 /\ final_height f == 100 /\
    bar_width_final f == 250 # 219.
Proof. eexists. split; [reflexivity |]. repeat split; reflexivity. Qed.

(** A renderer whose width is proportional to the bar width, as the
    sizing assumes: without the floor the second render has exactly the
    final width; with the floor it is wider than the final width. *)
Lemma rendered_width_linear modules size_height_init
  size_width_target size_height_target f :
  0 < modules -> 0 < size_width_target -> 0 < size_height_target ->
  barcode_fit (modules * initial_bar_width) size_height_init
    size_width_target size_height_target = Ok f ->
  (Qltb (initial_bar_width * (final_width f / (modules * initial_bar_width)))
        min_bar_width = false ->
   modules * bar_width_final f == final_width f) /\
  (Qltb (initial_bar_width * (final_width f / (modules * initial_bar_width)))
        min_bar_width = true ->
   final_width f < modules * bar_width_final f).
Proof.
  intros Hm HWt HHt Ef.
  assert (Hib : 0 < initial_bar_width) by reflexivity.
  assert (HW0 : 0 < modules * initial_bar_width) by nra.
  destruct (barcode_fit_ok (modules * initial_bar_width) size_height_init
              size_width_target size_height_target HW0 HWt HHt)
    as [f' [Ef' [_ [_ Hb]]]].
  rewrite Ef in Ef'. injection Ef' as <-.
  assert (Heq : modules * (initial_bar_width *
                  (final_width f / (modules * initial_bar_width)))
                == final_width f) by (field; split; lra).
  split; intros E; rewrite E in Hb; rewrite Hb.
  - exact Heq.
  - unfold Qltb in E. apply Qgtb_true in E.
    rewrite <- Heq at 1. nra.
Qed.

(** A payload of 2500 modules: the fitted width is 250, the bar width
    would be 0.1 and is replaced by the floor, and a proportional
    renderer then draws 500 points across a target of 463.28. *)
Example barcode_fit_floor_overflow :
  exists f,
    barcode_fit (2500 * initial_bar_width) 40 (58836 # 127) 100 = Ok f /\
    final_width f == 250 /\
    bar_width_final f = min_bar_width /\
    58836 # 127 < 2500 * bar_width_final f.
Proof. eexists. split; [reflexivity |]. repeat split; reflexivity. Qed.

Lemma candidate_proportion size_width_init size_height_init size_width_target :
  snd (candidate size_width_init size_height_init size_width_target)
    == size_height_init / 100 *
       fst (candidate size_width_init size_height_init size_width_target).
Proof. unfold candidate. cbn [fst snd]. field. Qed.

(** C1, as stated, fails on the payload SKU123|045|7|1 (baseline render
    262.8 by 40, A4 target box): the floor does not apply, yet the
    candidate height is not the natural height scaled by the factor of
    the width, and the fitted ratio 2.5 is not the baseline ratio 6.57. *)
Lemma barcode_fit_ratio_counterexample :
  exists f,
    barcode_fit (1314 # 5) 40 (58836 # 127) 100 = Ok f /\
    Qltb (initial_bar_width * (final_width f / (1314 # 5))) min_bar_width = false /\
    ~ snd (candidate (1314 # 5) 40 (58836 # 127))
        == 40 * (fst (candidate (1314 # 5) 40 (58836 # 127)) / (1314 # 5)) /\
    ~ final_width f / final_height f == (1314 # 5) / 40.
Proof.
  eexists. split; [reflexivity |]. split; [reflexivity |].
  split; intros H; vm_compute in H; discriminate H.
Qed.

(** C1, amended: the candidate height is the natural height over 100
    times the candidate width, and both clamps keep that proportion. For
    every baseline render of positive sizes the sizing returns, the fitted
    height is natural height / 100 times the fitted width, the fitted
    width/height ratio is 100 / natural height, and that ratio is the
    ratio of the baseline render exactly when the natural width is 100. *)
Theorem barcode_fit_proportion size_width_init size_height_init
  size_width_target size_height_target :
  0 < size_width_init -> 0 < size_height_init ->
  0 < size_width_target -> 0 < size_height_target ->
  exists f,
    barcode_fit size_width_init size_height_init
      size_width_target size_height_target = Ok f /\
    snd (candidate size_width_init size_height_init size_width_target)
      == size_height_init / 100 *
         fst (candidate size_width_init size_height_init size_width_target) /\
    final_height f == size_height_init / 100 * final_width f /\
    final_width f / final_height f == 100 / size_height_init /\
    (final_width f / final_height f == size_width_init / size_height_init
     <-> size_width_init == 100).
Proof.
  intros HW0 HH0 HWt HHt.
  destruct (barcode_fit_ok size_width_init size_height_init
              size_width_target size_height_target HW0 HWt HHt)
    as [f [Ef [Hw [Hh _]]]].
  exists f. split; [exact Ef |]. cbv zeta in *.
  pose proof (candidate_proportion size_width_init size_height_init
                size_width_target) as Hc.
  split; [exact Hc |].
  set (cw := fst (candidate size_width_init size_height_init size_width_target)) in *.
  set (ch := snd (candidate size_width_init size_height_init size_width_target)) in *.
  set (sw := clamp_factor cw size_width_target) in *.
  set (sh := clamp_factor (ch * sw) size_height_target) in *.
  assert (Hcw : 0 < cw).
  { unfold cw, candidate. cbn [fst].
    apply Qmult_lt_0_compat; [| exact HWt].
    apply Qlt_shift_div_l; lra. }
  pose proof (clamp_factor_range cw size_width_target HWt) as Hsw. fold sw in Hsw.
  pose proof (clamp_factor_range (ch * sw) size_height_target HHt) as Hsh.
  fold sh in Hsh.
  assert (Hfw : 0 < final_width f).
  { rewrite Hw. apply Qmult_lt_0_compat; [apply Qmult_lt_0_compat |]; tauto. }
  assert (Hprop : final_height f == size_height_init / 100 * final_width f).
  { rewrite Hh, Hw, Hc. ring. }
  assert (Hratio : final_width f / final_height f == 100 / size_height_init).
  { rewrite Hprop. field. split; lra. }
  split; [exact Hprop |]. split; [exact Hratio |].
  rewrite Hratio. split; intros H.
  - assert (E : 100 / size_height_init * size_height_init
                == size_width_init / size_height_init * size_height_init)
      by (rewrite H; reflexivity).
    field_simplify in E; lra.
  - rewrite H. reflexivity.
Qed.

Lemma barcode_fit_proportion_witness :
  0 < 1314 # 5 /\ 0 < 40 /\ 0 < 58836 # 127 /\ 0 < 100 /\
  exists f,
    barcode_fit (1314 # 5) 40 (58836 # 127) 100 = Ok f /\
    final_width f / final_height f == 100 / 40.
Proof.
  repeat (split; [reflexivity |]).
  destruct (barcode_fit_proportion (1314 # 5) 40 (58836 # 127) 100)
    as [f [Ef [_ [_ [Hr _]]]]]; try reflexivity.
  exists f. split; assumption.
Defined.

(** ** Column resolver *)

Section ResolverFacts.

Variable R : PyRuntime.

(** [any_match] is the inner loop over the patterns. *)
Lemma any_match_iff patterns h :
  any_match R patterns h = true <->
  exists p, In p patterns /\ re_search R p h = true.
Proof. unfold any_match. apply existsb_exists. Qed.

(** A pattern of literal characters matches at a position exactly when
    the text there starts with these characters. *)
Lemma match_here_chars (w : str) : forall prev s,
  match_here R (map Chr w) prev s = true <-> exists post, s = w ++ post.
Proof.
  induction w as [| c w IH]; intros prev s; simpl.
  - split; [intros _; exists s; reflexivity | reflexivity].
  - destruct s as [| x s]; [split; [discriminate | intros [post H]; discriminate] |].
    rewrite andb_true_iff, N.eqb_eq, IH. split.
    + intros [-> [post ->]]. exists post. reflexivity.
    + intros [post H]. injection H as -> ->. split; eauto.
Qed.

(** [re.search] of a literal pattern is the substring test. *)
Lemma search_from_chars (w : str) : forall prev s,
  search_from R (map Chr w) prev s = true <->
  exists pre post, s = pre ++ w ++ post.
Proof.
  intros prev s. revert prev.
  induction s as [| x s IH]; intros prev; simpl search_from;
    rewrite orb_true_iff, match_here_chars.
  - split.
    + intros [[post H] | H]; [| discriminate]. exists [], post. exact H.
    + intros [pre [post H]]. left. destruct pre as [| y pre]; [| discriminate].
      exists post. exact H.
  - rewrite IH. split.
    + intros [[post H] | [pre [post H]]].
      * exists [], post. exact H.
      * exists (x :: pre), post. simpl. rewrite H. reflexivity.
    + intros [pre [post H]]. destruct pre as [| y pre].
      * left. exists post. exact H.
      * right. injection H as _ H. exists pre, post. exact H.
Qed.

Lemma re_search_chars (w : string) (h : str) :
  re_search R (chars w) h = true <-> exists pre post, h = pre ++ lit w ++ post.
Proof. apply search_from_chars. Qed.

Lemma find_idx_from_first_match patterns : forall normalized i,
  match find_idx_from R i patterns normalized with
  | Some j =>
      exists k h, j = (i + Z.of_nat k)%Z /\
        nth_error normalized k = Some h /\
        any_match R patterns h = true /\
        (forall k' h', (k' < k)%nat -> nth_error normalized k' = Some h' ->
                       any_match R patterns h' = false)
  | None => forall h, In h normalized -> any_match R patterns h = false
  end.
Proof.
  induction normalized as [| c rest IH]; intros i; simpl.
  - intros h [].
  - destruct (any_match R patterns c) eqn:Hc.
    + exists 0%nat, c. split; [lia |]. split; [reflexivity |].
      split; [exact Hc |]. intros k' h' Hk. lia.
    + specialize (IH (i + 1)%Z).
      destruct (find_idx_from R (i + 1) patterns rest) as [j |].
      * destruct IH as [k [h [Hj [Hn [Hm Hfirst]]]]].
        exists (S k), h. split; [lia |]. split; [exact Hn |].
        split; [exact Hm |].
        intros [| k'] h' Hk Hnth; simpl in Hnth.
        -- injection Hnth as <-. exact Hc.
        -- apply (Hfirst k'); [lia | exact Hnth].
      * intros h [<- | Hin]; [exact Hc | apply IH; exact Hin].
Qed.

Lemma find_idx_first_match normalized patterns :
  first_match R patterns normalized (find_idx R normalized patterns).
Proof.
  unfold find_idx, first_match.
  pose proof (find_idx_from_first_match patterns normalized 0) as H.
  destruct (find_idx_from R 0 patterns normalized) as [j |]; [| exact H].
  destruct H as [k [h [Hj [Hn [Hm Hfirst]]]]].
  assert (Hk : Z.to_nat j = k) by lia.
  rewrite Hk. split; [lia |]. split; [eauto | exact Hfirst].
Qed.

End ResolverFacts.

Example normalize_stueckzahl :
  normalize_for_match latin1 (Some (lit "ST" ++ [220%N] ++ lit "CKZAHL "))
    = lit "stuckzahl".
Proof. vm_compute. reflexivity. Qed.

Example build_column_map_german :
  build_column_map latin1 german_header =
    {| company := Some 0%Z; article := Some 1%Z; quantity := Some 2%Z;
       batch := Some 3%Z; order := Some 4%Z; carton := Some 5%Z |}.
Proof. vm_compute. reflexivity. Qed.

Example build_column_map_english :
  build_column_map latin1
    [ lit "Order"; lit "SKU"; lit "Carton"; lit "QTY"; lit "Batch" ] =
    {| company := None; article := Some 1%Z; quantity := Some 3%Z;
       batch := Some 4%Z; order := Some 0%Z; carton := Some 2%Z |}.
Proof. vm_compute. reflexivity. Qed.

(** C7: for every header row each logical field resolves to the position
    of the first cell whose normalized form is matched by some pattern of
    the field's list, and to [None] when no cell is matched; with the
    tables of CPython the aliases St(u-umlaut)ckzahl, QTY and Quantity
    resolve the quantity field to their position. *)
Theorem build_column_map_first_match (R : PyRuntime) (header_row : list str) :
  let normalized := map (fun h => normalize_for_match R (Some h)) header_row in
  let colmap := build_column_map R header_row in
  (first_match R company_patterns normalized (company colmap) /\
   first_match R article_patterns normalized (article colmap) /\
   first_match R quantity_patterns normalized (quantity colmap) /\
   first_match R batch_patterns normalized (batch colmap) /\
   first_match R order_patterns normalized (order colmap) /\
   first_match R carton_patterns normalized (carton colmap)) /\
  quantity (build_column_map latin1
              [lit "Artikel"; lit "St" ++ [252%N] ++ lit "ckzahl"]) = Some 1%Z /\
  quantity (build_column_map latin1 [lit "SKU"; lit "Batch"; lit "QTY"]) = Some 2%Z /\
  quantity (build_column_map latin1 [lit "Quantity"; lit "Item No"]) = Some 0%Z.
Proof.
  cbv zeta. split.
  - unfold build_column_map. cbn [company article quantity batch order carton].
    repeat split; apply find_idx_first_match.
  - repeat split; vm_compute; reflexivity.
Qed.

(** ** [int] on a string of digits *)

Section IntFacts.

Variable R : PyRuntime.

Lemma is_decimal_not_space c : is_decimal R c = true -> is_space R c = false.
Proof.
  intros Hd. destruct (is_space R c) eqn:Hs; [| reflexivity].
  rewrite (is_decimal_space R c Hs) in Hd. discriminate.
Qed.

Lemma lstrip_id s :
  (forall c, In c s -> is_space R c = false) -> lstrip R s = s.
Proof.
  destruct s as [| c s]; simpl; [reflexivity |].
  intros H. rewrite (H c) by auto. reflexivity.
Qed.

Lemma strip_id s :
  (forall c, In c s -> is_space R c = false) -> strip R s = s.
Proof.
  intros H. unfold strip, rstrip.
  rewrite (lstrip_id s H), lstrip_id, rev_involutive; [reflexivity |].
  intros c Hc. apply H, in_rev, Hc.
Qed.

Lemma remove_non_digits_decimal s c :
  In c (remove_non_digits R s) -> is_decimal R c = true.
Proof. unfold remove_non_digits. intros H. apply filter_In in H. tauto. Qed.

Lemma int_body_digits ds : forall acc n need_digit,
  (forall c, In c ds -> is_decimal R c = true) ->
  ds <> [] \/ need_digit = false ->
  int_body R acc n need_digit ds
    = Some (digits_value_from R acc ds, (n + length ds)%nat).
Proof.
  induction ds as [| c ds IH]; intros acc n need_digit Hall Hne; simpl.
  - destruct Hne as [Hne | ->]; [congruence |].
    rewrite Nat.add_0_r. reflexivity.
  - pose proof (Hall c (or_introl eq_refl)) as Hc. unfold is_decimal in Hc.
    destruct (decimal_value R c) as [d |]; [| discriminate].
    rewrite IH; [| intros x Hx; apply Hall; right; exact Hx | right; reflexivity].
    f_equal. f_equal. lia.
Qed.

Lemma sign_not_decimal c :
  is_decimal R c = true -> N.eqb c 43 = false /\ N.eqb c 45 = false.
Proof.
  intros Hd. unfold is_decimal in Hd.
  split; apply N.eqb_neq; intros ->;
    rewrite ascii_decimal in Hd by reflexivity; discriminate.
Qed.

(** [int] of a non-empty string of decimal digits is the number they
    denote, unless there are more digits than the interpreter accepts. *)
Lemma py_int_digits ds :
  ds <> [] -> (forall c, In c ds -> is_decimal R c = true) ->
  py_int R ds =
    if over_limit R (length ds) then None else Some (digits_value R ds).
Proof.
  intros Hne Hall. unfold py_int.
  rewrite strip_id by (intros c Hc; apply is_decimal_not_space, Hall, Hc).
  destruct ds as [| c ds]; [congruence |].
  destruct (sign_not_decimal c (Hall c (or_introl eq_refl))) as [-> ->].
  rewrite int_body_digits; [reflexivity | exact Hall | left; exact Hne].
Qed.

Lemma over_limit_small n : (n <= 640)%nat -> over_limit R n = false.
Proof.
  intros Hn. unfold over_limit.
  destruct (int_limit_range R) as [-> | H]; [reflexivity |].
  apply andb_false_iff. right. apply Nat.ltb_ge. lia.
Qed.

End IntFacts.

(** ** Carton expansion *)

Lemma py_range_length lo hi : length (py_range lo hi) = Z.to_nat (hi - lo).
Proof. unfold py_range. rewrite length_map, length_seq. reflexivity. Qed.

Lemma py_range_1 : py_range 1 (1 + 1) = [1%Z].
Proof. reflexivity. Qed.

Section CartonFacts.

Variable R : PyRuntime.

Lemma row_labels_eq colmap row :
  row_labels R colmap row =
    map (fun k => label_of_row colmap row (str_of_int k))
        (py_range 1 (carton_total R (carton_cell colmap row) + 1)).
Proof. reflexivity. Qed.

Lemma decimal_value_ascii_digit (d : N) :
  (d < 10)%N -> decimal_value R (48 + d) = Some d.
Proof.
  intros Hd. rewrite ascii_decimal by lia.
  replace ((48 <=? 48 + d)%N) with true by (symmetry; apply N.leb_le; lia).
  replace ((48 + d <=? 57)%N) with true by (symmetry; apply N.leb_le; lia).
  cbn [andb]. f_equal. lia.
Qed.

Lemma carton_total_sanitized karton_raw ds :
  sanitize_numeric_keep_zeros R (Some karton_raw) (Some (lit "1")) = Some ds ->
  carton_total R karton_raw = total_of_digits R ds.
Proof.
  intros Hs. pose proof Hs as Hs'.
  rewrite sanitize_numeric_keep_zeros_digits in Hs'. injection Hs' as Hds.
  assert (Hne : ds <> [] /\ forall c, In c ds -> is_decimal R c = true).
  { destruct (remove_non_digits R karton_raw) as [| x t] eqn:E;
      simpl in Hds; subst ds.
    - split; [discriminate |]. intros c [<- | []].
      unfold is_decimal.
      replace (decimal_value R _) with (Some 1%N); [reflexivity |].
      symmetry. exact (decimal_value_ascii_digit 1 eq_refl).
    - split; [discriminate |]. intros c Hc.
      apply (remove_non_digits_decimal R karton_raw). rewrite E. exact Hc. }
  destruct Hne as [Hne Hall].
  unfold carton_total, total_of_digits. rewrite Hs.
  assert (Ht : truthy (Some ds) = true) by (destruct ds; [congruence | reflexivity]).
  rewrite Ht, (py_int_digits R ds Hne Hall).
  destruct (over_limit R (length ds)); [reflexivity |].
  destruct (Z.ltb_spec (digits_value R ds) 1); lia.
Qed.

(** The complete account of [k_total]: 1 for a cell without digits, 1 for
    more digits than [int] accepts, else the number the digits denote,
    raised to 1 when it is 0. *)
Lemma carton_total_eq karton_raw :
  carton_total R karton_raw =
    if is_empty (remove_non_digits R karton_raw) then 1%Z
    else total_of_digits R (remove_non_digits R karton_raw).
Proof.
  rewrite (carton_total_sanitized karton_raw _
             (sanitize_numeric_keep_zeros_digits R karton_raw (lit "1"))).
  destruct (remove_non_digits R karton_raw) as [| x t]; [| reflexivity].
  simpl is_empty. cbv iota. unfold total_of_digits.
  rewrite over_limit_small by (simpl; lia).
  unfold digits_value. simpl.
  replace (decimal_value R _) with (Some 1%N); [reflexivity |].
  symmetry. exact (decimal_value_ascii_digit 1 eq_refl).
Qed.

End CartonFacts.

(** C4: a data row whose carton cell sanitizes to the digit string 3
    gives exactly three labels, numbered 1, 2, 3 in this order and equal
    in every other field; a carton cell without digits, or whose digits
    parse to a number below 1, gives exactly one label numbered 1. *)
Theorem carton_expansion (R : PyRuntime) (colmap : ColumnMap) (row : list str) :
  (sanitize_numeric_keep_zeros R (Some (carton_cell colmap row)) (Some (lit "1"))
     = Some (lit "3") ->
   row_labels R colmap row =
     [ label_of_row colmap row (lit "1");
       label_of_row colmap row (lit "2");
       label_of_row colmap row (lit "3") ]) /\
  (remove_non_digits R (carton_cell colmap row) = [] ->
   row_labels R colmap row = [ label_of_row colmap row (lit "1") ]) /\
  (forall k,
     py_int R (remove_non_digits R (carton_cell colmap row)) = Some k ->
     (k < 1)%Z ->
     row_labels R colmap row = [ label_of_row colmap row (lit "1") ]).
Proof.
  rewrite row_labels_eq. split; [| split].
  - intros Hs. rewrite (carton_total_sanitized R _ _ Hs).
    unfold total_of_digits. rewrite over_limit_small by (simpl; lia).
    unfold digits_value. simpl digits_value_from.
    replace (decimal_value R _) with (Some 3%N)
      by (symmetry; exact (decimal_value_ascii_digit R 3 eq_refl)).
    reflexivity.
  - intros Hd. rewrite carton_total_eq, Hd. reflexivity.
  - intros k Hk Hlt. rewrite carton_total_eq.
    destruct (remove_non_digits R (carton_cell colmap row)) as [| x t] eqn:Hd;
      [reflexivity |].
    simpl is_empty. cbv iota. unfold total_of_digits.
    rewrite py_int_digits in Hk;
      [| discriminate
       | intros c Hc; apply (remove_non_digits_decimal R (carton_cell colmap row));
         rewrite Hd; exact Hc].
    destruct (over_limit R (length (x :: t))); [reflexivity |].
    injection Hk as Hk. rewrite Hk.
    replace (Z.max 1 k) with 1%Z by lia. reflexivity.
Qed.

Lemma carton_expansion_witness :
  row_labels latin1 demo_colmap (demo_row "3") =
    [ label_of_row demo_colmap (demo_row "3") (lit "1");
      label_of_row demo_colmap (demo_row "3") (lit "2");
      label_of_row demo_colmap (demo_row "3") (lit "3") ] /\
  row_labels latin1 demo_colmap (demo_row "abc") =
    [ label_of_row demo_colmap (demo_row "abc") (lit "1") ] /\
  row_labels latin1 demo_colmap (demo_row "0") =
    [ label_of_row demo_colmap (demo_row "0") (lit "1") ].
Proof.
  split; [| split].
  - apply (proj1 (carton_expansion latin1 demo_colmap (demo_row "3"))).
    reflexivity.
  - apply (proj1 (proj2 (carton_expansion latin1 demo_colmap (demo_row "abc")))).
    reflexivity.
  - apply (proj2 (proj2 (carton_expansion latin1 demo_colmap (demo_row "0"))) 0%Z).
    + reflexivity.
    + reflexivity.
Defined.

Example demo_labels_fields :
  label_of_row demo_colmap (demo_row "3") (lit "2") =
    {| company_raw := lit "Acme"; artikel_raw := lit "SKU123";
       qty_raw := lit "045"; batch_raw := lit "7"; order_raw := lit "PO-9";
       carton_no := lit "2" |}.
Proof. reflexivity. Qed.

(** C10: the carton total comes from the digits of the carton cell, in
    their order, every other character being dropped. For a cell whose
    number of digits [int] accepts: the sanitizer returns the default 1
    exactly when the cell has no digit, the total is 1 then, and
    otherwise it is the number the digits denote (1 if that is 0); the
    row gives that many labels. The cells -3 and 1x2 give 3 and 12
    labels. *)
Theorem carton_total_from_digits :
  (forall (R : PyRuntime) (karton_raw : str),
     let ds := remove_non_digits R karton_raw in
     over_limit R (length ds) = false ->
     sanitize_numeric_keep_zeros R (Some karton_raw) (Some (lit "1"))
       = Some (if is_empty ds then lit "1" else ds) /\
     carton_total R karton_raw
       = (if is_empty ds then 1%Z else Z.max 1 (digits_value R ds)) /\
     (forall colmap row, carton_cell colmap row = karton_raw ->
        length (row_labels R colmap row) = Z.to_nat (carton_total R karton_raw))) /\
  remove_non_digits latin1 (lit "-3") = lit "3" /\
  length (row_labels latin1 demo_colmap (demo_row "-3")) = 3%nat /\
  remove_non_digits latin1 (lit "1x2") = lit "12" /\
  length (row_labels latin1 demo_colmap (demo_row "1x2")) = 12%nat.
Proof.
  split; [| repeat split; vm_compute; reflexivity].
  intros R karton_raw ds Hlim.
  split; [apply sanitize_numeric_keep_zeros_digits |].
  split.
  - rewrite carton_total_eq. fold ds. unfold total_of_digits. rewrite Hlim.
    reflexivity.
  - intros colmap row <-. rewrite row_labels_eq, length_map, py_range_length.
    f_equal. lia.
Qed.

Lemma carton_total_from_digits_witness :
  over_limit latin1 (length (remove_non_digits latin1 (lit "1x2"))) = false /\
  carton_total latin1 (lit "1x2") = 12%Z.
Proof.
  split; [reflexivity |].
  destruct (proj1 carton_total_from_digits latin1 (lit "1x2") eq_refl)
    as [_ [H _]].
  rewrite H. reflexivity.
Defined.

(** Beyond the limit of [int] the conversion fails and the total is 1. *)
Example carton_total_over_limit :
  carton_total latin1 (repeat 57%N 4301) = 1%Z.
Proof. vm_compute. reflexivity. Qed.

(** ** Rows of the CSV file *)

Lemma filter_idem {A} (f : A -> bool) (l : list A) :
  filter f (filter f l) = filter f l.
Proof.
  induction l as [| x l IH]; simpl; [reflexivity |].
  destruct (f x) eqn:E; simpl; [rewrite E, IH |]; auto.
Qed.

Section DriverFacts.

Variable R : PyRuntime.
Variable B : Backend.

Lemma emit_app calls1 : forall calls2 out,
  emit R B (calls1 ++ calls2) out =
    match emit R B calls1 out with
    | (out', None) => emit R B calls2 out'
    | (out', Some e) => (out', Some e)
    end.
Proof.
  induction calls1 as [| a calls1 IH]; intros calls2 out; simpl; [reflexivity |].
  destruct (generate_pdf R B a); [apply IH | reflexivity].
Qed.

(** Once the header is known, every row that is not skipped is a data
    row and the skipped rows change nothing. *)
Lemma run_rows_data h cm : forall rows out,
  run_rows R B rows {| header := Some h; colmap := Some cm; written := out |} =
    let '(out', e) :=
      emit R B (flat_map (row_labels R cm) (kept_rows R rows)) out in
    ({| header := Some h; colmap := Some cm; written := out' |}, e).
Proof.
  induction rows as [| row rows IH]; intros out; [reflexivity |].
  cbn [run_rows kept_rows filter]. unfold process_row.
  destruct (is_blank_row R row); cbn [negb header colmap written].
  - apply IH.
  - cbn [flat_map]. rewrite emit_app.
    destruct (emit R B (row_labels R cm row) out) as [out1 [e |]].
    + reflexivity.
    + apply IH.
Qed.

(** Before the header is known, skipped rows change nothing and the first
    row that is not skipped becomes the header. *)
Lemma run_rows_start : forall rows,
  run_rows R B rows {| header := None; colmap := None; written := [] |} =
    match kept_rows R rows with
    | [] => ({| header := None; colmap := None; written := [] |}, None)
    | h :: data =>
        run_rows R B data
          {| header := Some h; colmap := Some (build_column_map R h);
             written := [] |}
    end.
Proof.
  induction rows as [| row rows IH]; [reflexivity |].
  cbn [run_rows kept_rows filter]. unfold process_row.
  destruct (is_blank_row R row) eqn:Hb; cbn [negb header colmap written].
  - exact IH.
  - rewrite !run_rows_data. unfold kept_rows.
    rewrite filter_idem. reflexivity.
Qed.

End DriverFacts.

Section BlankRows.

Variable R : PyRuntime.

Lemma lstrip_nil s :
  lstrip R s = [] <-> Forall (fun c => is_space R c = true) s.
Proof.
  induction s as [| c s IH]; simpl.
  - split; auto.
  - destruct (is_space R c) eqn:Hc.
    + rewrite IH. split; intros H; [constructor; auto | inversion H; auto].
    + split; intros H; [discriminate | inversion H; congruence].
Qed.

Lemma lstrip_head s c t : lstrip R s = c :: t -> is_space R c = false.
Proof.
  induction s as [| x s IH]; simpl; [discriminate |].
  destruct (is_space R x) eqn:Hx; [exact IH |].
  intros H. injection H as <- _. exact Hx.
Qed.

(** A string strips to the empty string exactly when it consists of
    whitespace only. *)
Lemma strip_nil s :
  strip R s = [] <-> Forall (fun c => is_space R c = true) s.
Proof.
  unfold strip, rstrip. split.
  - intros H. apply (f_equal (@rev N)) in H. rewrite rev_involutive in H.
    simpl in H. apply lstrip_nil in H.
    destruct (lstrip R s) as [| c t] eqn:E; [apply lstrip_nil; exact E |].
    pose proof (lstrip_head _ _ _ E) as Hc.
    apply Forall_rev in H. rewrite rev_involutive in H.
    inversion H. congruence.
  - intros H. apply lstrip_nil in H. rewrite H. reflexivity.
Qed.

(** The skipped rows: no cell, or whitespace in every cell. *)
Lemma is_blank_row_iff row :
  is_blank_row R row = true <->
  Forall (fun cell => Forall (fun c => is_space R c = true) cell) row.
Proof.
  unfold is_blank_row. destruct row as [| cell row]; [split; auto |].
  rewrite forallb_forall, Forall_forall.
  split; intros H x Hx.
  - apply strip_nil, is_empty_nil, H, Hx.
  - apply is_empty_nil, strip_nil, H, Hx.
Qed.

End BlankRows.

(** C8: the rows without a cell or with whitespace in every cell are
    skipped wherever they stand; the first row that is not skipped is the
    header, whatever it contains, and each later row that is not skipped
    is processed as a data row, in order. [run_csv] is the run of the
    labels of these data rows under the column map of that header. *)
Theorem run_csv_rows (R : PyRuntime) (B : Backend) (rows : list (list str)) :
  run_csv R B rows =
    match kept_rows R rows with
    | [] => ([], None)
    | h :: data =>
        emit R B (flat_map (row_labels R (build_column_map R h)) data) []
    end /\
  (forall row, In row (kept_rows R rows) <->
     In row rows /\
     ~ Forall (fun cell => Forall (fun c => is_space R c = true) cell) row).
Proof.
  split.
  - unfold run_csv. rewrite run_rows_start.
    destruct (kept_rows R rows) as [| h data] eqn:Hk; [reflexivity |].
    rewrite run_rows_data.
    assert (Hd : kept_rows R data = data).
    { assert (Hkk : kept_rows R (h :: data) = h :: data)
        by (rewrite <- Hk; apply filter_idem).
      unfold kept_rows in Hkk |- *. simpl in Hkk.
      destruct (negb (is_blank_row R h)).
      - injection Hkk as Hkk. exact Hkk.
      - pose proof (filter_length_le (fun row => negb (is_blank_row R row)) data) as Hl.
        rewrite Hkk in Hl. simpl in Hl. lia. }
    rewrite Hd.
    destruct (emit R B _ []) as [out e]. reflexivity.
  - intros row. unfold kept_rows. rewrite filter_In, negb_true_iff.
    rewrite <- is_blank_row_iff.
    destruct (is_blank_row R row); split; intros [H1 H2]; split; auto;
      try discriminate; try congruence.
Qed.

(** A blank row after the header and rows of spaces before it: the
    header is still the first row with content, and the data row gives
    its two labels. *)
Example run_csv_blank_rows :
  kept_rows latin1
    [ []; [lit "  "; lit EmptyString]; demo_header; [lit " "]; demo_row "2"; [] ]
    = [ demo_header; demo_row "2" ].
Proof. vm_compute. reflexivity. Qed.

(** ** Barcode payload and caption *)

Section PayloadFacts.

Variable R : PyRuntime.
Variable B : Backend.

Lemma sanitize_any_value v d :
  sanitize_any R (Some v) (Some d) =
    Some (if is_empty (strip R v) then d else strip R v).
Proof.
  unfold sanitize_any. destruct (is_empty (strip R v)); reflexivity.
Qed.

Lemma payload_of_eq a :
  payload_of R a =
    strip R (artikel_raw a) ++ lit "|" ++ qty_digits_of R a ++ lit "|" ++
    (if is_empty (strip R (batch_raw a)) then lit "1" else strip R (batch_raw a)) ++
    lit "|" ++ carton_no a.
Proof.
  unfold payload_of, barcode_payload, qty_digits_of.
  rewrite !sanitize_any_value, sanitize_numeric_keep_zeros_digits.
  cbn [fmt].
  destruct (strip R (artikel_raw a)); reflexivity.
Qed.

Lemma barcode_values_app ops1 ops2 :
  barcode_values (ops1 ++ ops2) = barcode_values ops1 ++ barcode_values ops2.
Proof. apply flat_map_app. Qed.

Lemma barcode_values_draw_row label_x col1_w col2_w y_top height
  main_label sub_label value shrinkable :
  barcode_values
    (draw_row B label_x col1_w col2_w y_top height main_label sub_label
       value shrinkable) = [].
Proof. unfold draw_row. destruct value; reflexivity. Qed.

(** The barcode row draws the payload twice: as the barcode and, right
    after it, as the caption in the regular font at size 12. *)
Lemma barcode_row_ok label_x label_w row_top rh barcode_data :
  0 < fst (code128 B barcode_data initial_bar_height initial_bar_width) ->
  60 < label_w ->
  exists h w x y cx cy,
    barcode_row B label_x label_w row_top rh barcode_data =
      Ok [ Rect label_x (row_top - rh) label_w rh;
           DrawBarcode barcode_data h w x y;
           SetFont (FONT_REGULAR B) 12;
           DrawCentredString cx cy barcode_data ].
Proof.
  intros HW0 Hw. unfold barcode_row.
  match goal with
  | |- context [barcode_fit ?a ?b ?c ?d] =>
      destruct (barcode_fit_ok a b c d) as [f [Ef _]]
  end.
  - exact HW0.
  - lra.
  - destruct (Qltb (rh - 16 - (inject_Z 12 + 6 + 16)) 30) eqn:E; [reflexivity |].
    unfold Qltb in E. apply Qgtb_false in E. lra.
  - rewrite Ef. cbn [bind]. do 6 eexists. reflexivity.
Qed.

Lemma remove_non_digits_idem s :
  remove_non_digits R (remove_non_digits R s) = remove_non_digits R s.
Proof. apply filter_idem. Qed.

Lemma digits_of_qty_digits a :
  digits_of R (sanitize_numeric_keep_zeros R (Some (qty_raw a)) (Some (lit "0")))
    = qty_digits_of R a.
Proof.
  rewrite sanitize_numeric_keep_zeros_digits. unfold qty_digits_of, digits_of.
  destruct (remove_non_digits R (qty_raw a)) as [| x t] eqn:E; cbn [is_empty].
  - unfold remove_non_digits. simpl. unfold is_decimal.
    replace (decimal_value R _) with (Some 0%N); [reflexivity |].
    symmetry. exact (decimal_value_ascii_digit R 0 eq_refl).
  - rewrite <- E. apply remove_non_digits_idem.
Qed.

End PayloadFacts.

(** C3: whenever the baseline render has a positive width and the page is
    wider than the margins, [generate_pdf] returns a page on which the
    only barcode encodes the payload and the caption drawn right after it,
    in the regular font at size 12, is the same string; the payload is
    article|digits|batch|carton number, with all digits of the quantity
    (or 0 when it has none), while the Quantity row shows these digits
    without their leading zeros. *)
Theorem barcode_payload_identity (R : PyRuntime) (B : Backend) (a : label) :
  0 < fst (code128 B (payload_of R a) initial_bar_height initial_bar_width) ->
  132 < fst (A4 B) ->
  exists p pre post h w x y cx cy qx qy,
    generate_pdf R B a = Ok p /\
    page p =
      pre ++
      [ DrawBarcode (payload_of R a) h w x y;
        SetFont (FONT_REGULAR B) 12;
        DrawCentredString cx cy (payload_of R a) ] ++ post /\
    barcode_values (page p) = [payload_of R a] /\
    payload_of R a =
      strip R (artikel_raw a) ++ lit "|" ++ qty_digits_of R a ++ lit "|" ++
      (if is_empty (strip R (batch_raw a)) then lit "1"
       else strip R (batch_raw a)) ++
      lit "|" ++ carton_no a /\
    In (DrawString qx qy (quantity_display_of R a)) (page p).
Proof.
  intros HW0 HA4. unfold generate_pdf.
  rewrite strip_leading_zeros_keep_zero_eq, digits_of_qty_digits. cbn [bind].
  fold (payload_of R a). fold (quantity_display_of R a).
  repeat match goal with
  | |- context [safe_filename_component R ?v (Some ?d)] =>
      let s := fresh "s" in
      destruct (safe_filename_component_ok R v d) as [s ->]; cbn [bind]
  end.
  destruct (A4 B) as [page_w page_h] eqn:EA4. cbn [fst] in HA4.
  destruct (sanitize_any_some R (Some (company_raw a)) (lit "COMPANY_NAME"))
    as [company ->].
  cbn [as_text bind].
  match goal with
  | |- context [barcode_row B ?lx ?lw ?rt ?rh ?d] =>
      destruct (barcode_row_ok B lx lw rt rh d) as [h [w [x [y [cx [cy Eb]]]]]]
  end.
  - exact HW0.
  - lra.
  - rewrite Eb. cbn [bind].
    match goal with
    | |- context [Ok {| pdf_file := ?f;
                        page := ?fr ++ ?hd ++ ?ar ++ ?qr ++ (?cell :: ?bc) ++ ?rest |}] =>
        exists {| pdf_file := f;
                  page := fr ++ hd ++ ar ++ qr ++ (cell :: bc) ++ rest |},
               (fr ++ hd ++ ar ++ qr ++ [cell]), rest
    end.
    exists h, w, x, y, cx, cy. do 2 eexists.
    split; [reflexivity |]. cbn [page].
    split; [rewrite <- !app_assoc; reflexivity |].
    split; [| split; [apply payload_of_eq |]].
    + rewrite !barcode_values_app, !barcode_values_draw_row. reflexivity.
    + do 3 (apply in_or_app; right). apply in_or_app; left.
      unfold draw_row. apply in_or_app; right. right. left. reflexivity.
Qed.

Lemma barcode_payload_identity_witness :
  0 < fst (code128 demo_backend (payload_of latin1 demo_label)
             initial_bar_height initial_bar_width) /\
  132 < fst (A4 demo_backend) /\
  exists p,
    generate_pdf latin1 demo_backend demo_label = Ok p /\
    barcode_values (page p) = [payload_of latin1 demo_label].
Proof.
  split; [vm_compute; reflexivity |]. split; [vm_compute; reflexivity |].
  destruct (barcode_payload_identity latin1 demo_backend demo_label)
    as [p [pre [post [h [w [x [y [cx [cy [qx [qy [E [_ [Hb _]]]]]]]]]]]]]].
  - vm_compute. reflexivity.
  - vm_compute. reflexivity.
  - exists p. split; assumption.
Defined.

(** The quantity 045 stays 045 in the payload and shows as 45. *)
Example demo_payload :
  payload_of latin1 demo_label = lit "SKU123|045|7|1" /\
  quantity_display_of latin1 demo_label = lit "45" /\
  option_map (fun p => barcode_values (page p))
    (match generate_pdf latin1 demo_backend demo_label with
     | Ok p => Some p
     | Raise _ => None
     end) = Some [lit "SKU123|045|7|1"].
Proof. repeat split; vm_compute; reflexivity. Qed.

(** ** End to end

    The header Company;Artikel;Quantity;Chargen;Bestell;Karton and the
    data row Acme;SKU123;045;7;PO-9;2, with a blank row between them:
    two files, named after company, order, batch and box, with the
    payloads of box 1 and box 2, and no exception. *)
Example run_csv_end_to_end :
  let '(files, e) :=
    run_csv latin1 demo_backend [ demo_header; [lit " "]; demo_row "2" ] in
  map pdf_file files =
    [ lit "Acme - Order PO-9, Batch 7, Box 1.pdf";
      lit "Acme - Order PO-9, Batch 7, Box 2.pdf" ] /\
  map (fun p => barcode_values (page p)) files =
    [ [lit "SKU123|045|7|1"]; [lit "SKU123|045|7|2"] ] /\
  e = None.
Proof. vm_compute. repeat split. Qed.

(** * Further properties *)

(** ** The normal form of [generate_pdf] *)

Section GeneratePdfFacts.

Variable R : PyRuntime.
Variable B : Backend.

(** Everything before the barcode row succeeds; the call is the barcode
    row followed by the assembly of the file. *)
Lemma generate_pdf_eq a :
  generate_pdf R B a =
    bind (barcode_row B 36 (fst (A4 B) - 2 * 36) (row_top_of B 3) (row_height 3)
            (payload_of R a))
         (fun barcode =>
            Ok {| pdf_file := file_name R a; page := page_with R B a barcode |}).
Proof.
  unfold generate_pdf, file_name, component, page_with, company_of, frame_of.
  rewrite strip_leading_zeros_keep_zero_eq, digits_of_qty_digits. cbn [bind].
  fold (payload_of R a). fold (quantity_display_of R a).
  repeat match goal with
  | |- context [safe_filename_component R ?v (Some ?d)] =>
      let s := fresh "s" in
      destruct (safe_filename_component_ok R v d) as [s ->]; cbn [bind]
  end.
  rewrite (sanitize_any_value R (company_raw a)). cbn [as_text bind].
  cbn [row_top_of]. unfold frame_of.
  destruct (A4 B) as [page_w page_h]. cbn [fst].
  reflexivity.
Qed.

End GeneratePdfFacts.

(** ** Exceptions of the barcode sizing *)







Section BarcodeRowFacts.

Variable B : Backend.

(** The target height of the barcode row is at least 30. *)
Lemma barcode_row_shape label_x label_w row_top rh barcode_data :
  exists Ht, 0 < Ht /\
    barcode_row B label_x label_w row_top rh barcode_data =
      bind (barcode_fit
              (fst (code128 B barcode_data initial_bar_height initial_bar_width))
              (snd (code128 B barcode_data initial_bar_height initial_bar_width))
              (label_w - 60) Ht)
           (fun f =>
              let barcode_obj :=
                code128 B barcode_data (final_height f) (bar_width_final f) in
              Ok [ Rect label_x (row_top - rh) label_w rh;
                   DrawBarcode barcode_data (final_height f) (bar_width_final f)
                     (label_x + (label_w - fst barcode_obj) / 2)
                     ((row_top - rh) + 16 + (Ht - snd barcode_obj) / 2 + 15);
                   SetFont (FONT_REGULAR B) 12;
                   DrawCentredString (label_x + label_w / 2) ((row_top - rh) + 16)
                     barcode_data ]).
Proof.
  unfold barcode_row.
  match goal with
  | |- context [barcode_fit _ _ _ ?t] => exists t
  end.
  split; [| reflexivity].
  destruct (Qltb (rh - 16 - (inject_Z 12 + 6 + 16)) 30) eqn:E; [reflexivity |].
  unfold Qltb in E. apply Qgtb_false in E. lra.
Qed.

Lemma barcode_row_inv label_x label_w row_top rh barcode_data ops :
  barcode_row B label_x label_w row_top rh barcode_data = Ok ops ->
  exists h w x y cx cy,
    ops = [ Rect label_x (row_top - rh) label_w rh;
            DrawBarcode barcode_data h w x y;
            SetFont (FONT_REGULAR B) 12;
            DrawCentredString cx cy barcode_data ].
Proof.
  destruct (barcode_row_shape label_x label_w row_top rh barcode_data)
    as [Ht [_ ->]].
  destruct (barcode_fit _ _ _ Ht) as [f | e]; cbn [bind]; [| discriminate].
  intros H. injection H as <-. do 6 eexists. reflexivity.
Qed.


End BarcodeRowFacts.





(** ** The page *)

Lemma rects_app ops1 ops2 : rects (ops1 ++ ops2) = rects ops1 ++ rects ops2.
Proof. apply flat_map_app. Qed.

Lemma rects_draw_row B label_x col1_w col2_w y_top height
  main_label sub_label value shrinkable :
  rects (draw_row B label_x col1_w col2_w y_top height main_label sub_label
           value shrinkable)
    = [ (label_x, y_top - height, col1_w, height);
        (label_x + col1_w, y_top - height, col2_w, height) ].
Proof. unfold draw_row. destruct value; reflexivity. Qed.

(** What a successful call leaves: the file name and the page around the
    four operations of the barcode row. *)
Lemma generate_pdf_inv R B a p :
  generate_pdf R B a = Ok p ->
  exists h w x y cx cy,
    p = {| pdf_file := file_name R a;
           page := page_with R B a
                     [ Rect 36 (row_top_of B 3 - row_height 3)
                         (fst (A4 B) - 2 * 36) (row_height 3);
                       DrawBarcode (payload_of R a) h w x y;
                       SetFont (FONT_REGULAR B) 12;
                       DrawCentredString cx cy (payload_of R a) ] |}.
Proof.
  rewrite generate_pdf_eq.
  destruct (barcode_row B 36 (fst (A4 B) - 2 * 36) (row_top_of B 3)
              (row_height 3) (payload_of R a)) as [ops | e] eqn:E;
    cbn [bind]; [| discriminate].
  intros H. injection H as <-.
  destruct (barcode_row_inv B _ _ _ _ _ _ E) as [h [w [x [y [cx [cy ->]]]]]].
  do 6 eexists. reflexivity.
Qed.

(** The thirteen rectangles of a page, from the frame to the box row. *)
Lemma rects_page_with R B a barcode_rect h w x y cx cy :
  let '(label_x, label_y, label_w, label_h) := frame_of B in
  let col1_w := label_w * 0.45 in
  let col2_w := label_w - col1_w in
  let cells i :=
    [ (label_x, row_top_of B i - row_height i, col1_w, row_height i);
      (label_x + col1_w, row_top_of B i - row_height i, col2_w, row_height i) ] in
  rects (page_with R B a
           [ Rect (fst (fst (fst barcode_rect))) (snd (fst (fst barcode_rect)))
               (snd (fst barcode_rect)) (snd barcode_rect);
             DrawBarcode (payload_of R a) h w x y;
             SetFont (FONT_REGULAR B) 12;
             DrawCentredString cx cy (payload_of R a) ])
    = [ (label_x, label_y, label_w, label_h);
        (label_x, row_top_of B 0 - row_height 0, label_w, row_height 0) ] ++
      cells 1%nat ++ cells 2%nat ++
      [ (fst (fst (fst barcode_rect)), snd (fst (fst barcode_rect)),
         snd (fst barcode_rect), snd barcode_rect) ] ++
      cells 4%nat ++ cells 5%nat ++ cells 6%nat.
Proof.
  unfold page_with. destruct (frame_of B) as [[[label_x label_y] label_w] label_h].
  cbv zeta. rewrite !rects_app, !rects_draw_row. reflexivity.
Qed.

(** X3: every page that [generate_pdf] writes has the same skeleton,
    whatever the texts: thirteen rectangles (the frame, the header cell,
    the barcode cell and two cells for each of the five labelled rows),
    one barcode, and [Save] as the last operation. *)
Theorem generate_pdf_page_skeleton (R : PyRuntime) (B : Backend)
  (a : label) (p : pdf) :
  generate_pdf R B a = Ok p ->
  length (rects (page p)) = 13%nat /\
  length (barcode_values (page p)) = 1%nat /\
  exists ops, page p = ops ++ [Save].
Proof.
  intros H. destruct (generate_pdf_inv R B a p H) as [h [w [x [y [cx [cy ->]]]]]].
  cbn [page]. split; [| split].
  - pose proof (rects_page_with R B a
                  (36, row_top_of B 3 - row_height 3, fst (A4 B) - 2 * 36,
                   row_height 3) h w x y cx cy) as Hr.
    destruct (frame_of B) as [[[label_x label_y] label_w] label_h].
    cbv zeta in Hr. cbn [fst snd] in Hr. rewrite Hr. reflexivity.
  - unfold page_with.
    destruct (frame_of B) as [[[label_x label_y] label_w] label_h]. cbv zeta.
    rewrite !barcode_values_app, !barcode_values_draw_row. reflexivity.
  - unfold page_with.
    destruct (frame_of B) as [[[label_x label_y] label_w] label_h]. cbv zeta.
    eexists. rewrite !app_assoc. reflexivity.
Qed.

Lemma generate_pdf_page_skeleton_witness :
  exists p,
    generate_pdf latin1 demo_backend demo_label = Ok p /\
    length (rects (page p)) = 13%nat.
Proof.
  destruct (generate_pdf latin1 demo_backend demo_label) as [p | e] eqn:E.
  - exists p. split; [reflexivity |].
    exact (proj1 (generate_pdf_page_skeleton latin1 demo_backend demo_label p E)).
  - vm_compute in E. discriminate E.
Defined.

(** X4: on a page at least 730 points high and 72 points wide (A4 is
    841.9 by 595.3) every rectangle that [generate_pdf] draws lies within
    the label frame: the seven rows, 590 points in all, leave the frame
    neither at the bottom nor at the sides. *)
Theorem generate_pdf_rects_within_frame (R : PyRuntime) (B : Backend)
  (a : label) (p : pdf) :
  72 <= fst (A4 B) -> 730 <= snd (A4 B) ->
  generate_pdf R B a = Ok p ->
  Forall (within (frame_of B)) (rects (page p)).
Proof.
  intros Hw Hh H.
  destruct (generate_pdf_inv R B a p H) as [h [w [x [y [cx [cy ->]]]]]].
  cbn [page].
  pose proof (rects_page_with R B a
                (36, row_top_of B 3 - row_height 3, fst (A4 B) - 2 * 36,
                 row_height 3) h w x y cx cy) as Hr.
  cbn [row_top_of] in Hr |- *. unfold frame_of in Hr |- *.
  destruct (A4 B) as [page_w page_h]. cbn [fst snd] in *.
  cbv zeta in Hr. rewrite Hr. clear Hr.
  unfold row_height, row_heights. cbn [nth app].
  repeat constructor; cbn [fst snd]; lra.
Qed.

Lemma generate_pdf_rects_within_frame_witness :
  72 <= fst (A4 demo_backend) /\ 730 <= snd (A4 demo_backend) /\
  exists p,
    generate_pdf latin1 demo_backend demo_label = Ok p /\
    Forall (within (frame_of demo_backend)) (rects (page p)).
Proof.
  split; [discriminate |]. split; [discriminate |].
  destruct (generate_pdf latin1 demo_backend demo_label) as [p | e] eqn:E.
  - exists p. split; [reflexivity |].
    apply (generate_pdf_rects_within_frame latin1 demo_backend demo_label p);
      [discriminate | discriminate | exact E].
  - vm_compute in E. discriminate E.
Defined.

(** ** File names *)

Lemma truncate_component_length_le s n :
  (0 <= n)%Z -> (length (truncate_component (Some s) n) <= Z.to_nat n)%nat.
Proof.
  intros Hn. unfold truncate_component, slice_to.
  destruct (Z.leb_spec (Z.of_nat (length s)) n); [lia |].
  destruct (Z.ltb_spec n 0); [lia |].
  rewrite length_firstn. lia.
Qed.

(** X5: for a maximal length that is not negative, [truncate_component]
    returns the first [max_len] characters, the whole string when it is
    not longer; for a negative one it does not return the empty string
    but drops that many characters from the end, as the slice does. *)
Theorem truncate_component_length (s : str) (max_len : Z) :
  ((0 <= max_len)%Z ->
   truncate_component (Some s) max_len = firstn (Z.to_nat max_len) s /\
   length (truncate_component (Some s) max_len)
     = Nat.min (length s) (Z.to_nat max_len)) /\
  ((max_len < 0)%Z ->
   truncate_component (Some s) max_len
     = firstn (length s - Z.to_nat (- max_len)) s).
Proof.
  unfold truncate_component, slice_to. split; intros Hn.
  - destruct (Z.leb_spec (Z.of_nat (length s)) max_len).
    + rewrite firstn_all2 by lia. split; [reflexivity | lia].
    + destruct (Z.ltb_spec max_len 0); [lia |].
      split; [reflexivity |]. rewrite length_firstn. lia.
  - destruct (Z.leb_spec (Z.of_nat (length s)) max_len); [lia |].
    destruct (Z.ltb_spec max_len 0); [| lia].
    f_equal. lia.
Qed.

Lemma truncate_component_length_witness :
  truncate_component (Some (lit "Batch-2024")) 5 = lit "Batch" /\
  truncate_component (Some (lit "Batch-2024")) (-5) = lit "Batch".
Proof.
  split.
  - rewrite (proj1 (proj1 (truncate_component_length (lit "Batch-2024") 5)
                      ltac:(lia))).
    reflexivity.
  - rewrite (proj2 (truncate_component_length (lit "Batch-2024") (-5))
               ltac:(lia)).
    reflexivity.
Defined.

(** X6: the name of the written file depends on the company, the order,
    the batch and the carton number only: two calls that agree on these
    four write the same file name, whatever their articles and
    quantities, so the later file replaces the earlier one. *)
Theorem pdf_file_collision (R : PyRuntime) (B : Backend) (a a' : label)
  (p p' : pdf) :
  generate_pdf R B a = Ok p -> generate_pdf R B a' = Ok p' ->
  company_raw a = company_raw a' -> order_raw a = order_raw a' ->
  batch_raw a = batch_raw a' -> carton_no a = carton_no a' ->
  pdf_file p = pdf_file p'.
Proof.
  intros H H' Hc Ho Hb Hn.
  destruct (generate_pdf_inv R B a p H) as [h [w [x [y [cx [cy ->]]]]]].
  destruct (generate_pdf_inv R B a' p' H') as [h' [w' [x' [y' [cx' [cy' ->]]]]]].
  cbn [pdf_file]. unfold file_name. rewrite Hc, Ho, Hb, Hn. reflexivity.
Qed.

(** The first carton of the example with another article and quantity. *)
Lemma pdf_file_collision_witness :
  exists p p',
    generate_pdf latin1 demo_backend demo_label = Ok p /\
    generate_pdf latin1 demo_backend
      {| company_raw := lit "Acme"; artikel_raw := lit "OTHER-9";
         qty_raw := lit "12"; batch_raw := lit "7"; order_raw := lit "PO-9";
         carton_no := lit "1" |} = Ok p' /\
    pdf_file p = pdf_file p' /\
    barcode_values (page p) <> barcode_values (page p').
Proof.
  destruct (generate_pdf latin1 demo_backend demo_label) as [p | e] eqn:E;
    [| vm_compute in E; discriminate E].
  destruct (generate_pdf latin1 demo_backend
              {| company_raw := lit "Acme"; artikel_raw := lit "OTHER-9";
                 qty_raw := lit "12"; batch_raw := lit "7";
                 order_raw := lit "PO-9"; carton_no := lit "1" |})
    as [p' | e] eqn:E'; [| vm_compute in E'; discriminate E'].
  exists p, p'. split; [reflexivity |]. split; [reflexivity |]. split.
  - apply (pdf_file_collision latin1 demo_backend _ _ p p' E E'); reflexivity.
  - vm_compute in E. vm_compute in E'.
    injection E as <-. injection E' as <-. vm_compute. discriminate.
Defined.

(** X7: the name of a written file is at most 127 characters plus the
    carton number: 40 for the company, 40 for the order, 20 for the batch
    and 27 of fixed text. *)
Theorem pdf_file_length (R : PyRuntime) (B : Backend) (a : label) (p : pdf) :
  generate_pdf R B a = Ok p ->
  (length (pdf_file p) <= 127 + length (carton_no a))%nat.
Proof.
  intros H.
  destruct (generate_pdf_inv R B a p H) as [h [w [x [y [cx [cy ->]]]]]].
  cbn [pdf_file]. unfold file_name, component.
  rewrite !length_app.
  repeat match goal with
  | |- context [length (truncate_component (Some ?s) ?n)] =>
      let Hl := fresh "Hl" in
      pose proof (truncate_component_length_le s n ltac:(lia)) as Hl;
      generalize dependent (truncate_component (Some s) n); intros
  end.
  change (length (lit " - Order ")) with 9%nat.
  change (length (lit ", Batch ")) with 8%nat.
  change (length (lit ", Box ")) with 6%nat.
  change (length (lit ".pdf")) with 4%nat.
  lia.
Qed.

Lemma pdf_file_length_witness :
  exists p,
    generate_pdf latin1 demo_backend demo_label = Ok p /\
    (length (pdf_file p) <= 127 + length (carton_no demo_label))%nat.
Proof.
  destruct (generate_pdf latin1 demo_backend demo_label) as [p | e] eqn:E;
    [| vm_compute in E; discriminate E].
  exists p. split; [reflexivity |].
  exact (pdf_file_length latin1 demo_backend demo_label p E).
Defined.

(** ** Shrink-to-fit: the largest size that fits *)

Lemma shrink_run_skipped width_at available_w min_font s n s' :
  shrink_run width_at available_w min_font s n s' ->
  forall t, (s' < t <= s)%Z -> available_w < width_at t.
Proof.
  induction 1 as [s Hc | s n s' Hc Hrun IH]; intros t Ht; [lia |].
  destruct (Z.eq_dec t s) as [-> | Hne].
  - apply andb_true_iff in Hc. apply Qgtb_true. tauto.
  - apply IH. lia.
Qed.

(** X8: the size that shrink-to-fit returns is the largest one that
    fits: the text is too wide at every size between the returned size
    and the starting size. With the last alternative of the loop (fits or
    floor), the loop never shrinks a text further than needed. *)
Theorem shrink_to_fit_largest (width_at : Z -> Q) (available_w : Q)
  (min_font font_size t : Z) :
  (shrink_to_fit width_at available_w min_font font_size < t <= font_size)%Z ->
  available_w < width_at t.
Proof.
  intros Ht.
  destruct (shrink_to_fit_run width_at available_w min_font
              (Z.to_nat (font_size - min_font)) font_size)
    as [n [Hrun _]]; [lia |].
  exact (shrink_run_skipped _ _ _ _ _ _ Hrun t Ht).
Qed.

(** Forty characters at 0.6 em: size 16 is kept, size 17 is too wide. *)
Lemma shrink_to_fit_largest_witness :
  (shrink_to_fit (stringWidth demo_backend (repeat 65%N 40) (FONT_BOLD demo_backend))
     400 12 42 < 17 <= 42)%Z /\
  400 < stringWidth demo_backend (repeat 65%N 40) (FONT_BOLD demo_backend) 17.
Proof.
  split; [vm_compute; split; [reflexivity | discriminate] |].
  apply (shrink_to_fit_largest
           (stringWidth demo_backend (repeat 65%N 40) (FONT_BOLD demo_backend))
           400 12 42 17).
  vm_compute. split; [reflexivity | discriminate].
Defined.

(** ** Stripping *)

Section StripFacts.

Variable R : PyRuntime.

Lemma lstrip_split s :
  exists ws, s = ws ++ lstrip R s /\ all_space R ws.
Proof.
  induction s as [| c s [ws [Hs Hws]]]; simpl.
  - exists []. split; [reflexivity | constructor].
  - destruct (is_space R c) eqn:Hc.
    + exists (c :: ws). split; [simpl; f_equal; exact Hs |].
      constructor; assumption.
    + exists []. split; [reflexivity | constructor].
Qed.

Lemma rstrip_split s :
  exists ws, s = rstrip R s ++ ws /\ all_space R ws.
Proof.
  unfold rstrip. destruct (lstrip_split (rev s)) as [ws [Hs Hws]].
  exists (rev ws). split.
  - rewrite <- rev_app_distr, <- Hs, rev_involutive. reflexivity.
  - apply Forall_rev. exact Hws.
Qed.

Lemma lstrip_app_space ws s : all_space R ws -> lstrip R (ws ++ s) = lstrip R s.
Proof.
  induction 1 as [| c ws Hc _ IH]; simpl; [reflexivity |].
  rewrite Hc. exact IH.
Qed.

Lemma lstrip_app_keep s t c u :
  lstrip R s = c :: u -> lstrip R (s ++ t) = lstrip R s ++ t.
Proof.
  induction s as [| x s IH]; simpl; [discriminate |].
  destruct (is_space R x); [exact IH | reflexivity].
Qed.

Lemma lstrip_all_space s : all_space R s -> lstrip R s = [].
Proof. intros H. apply lstrip_nil. exact H. Qed.

Lemma rstrip_app_space s ws : all_space R ws -> rstrip R (s ++ ws) = rstrip R s.
Proof.
  intros H. unfold rstrip. rewrite rev_app_distr, lstrip_app_space; [reflexivity |].
  apply Forall_rev. exact H.
Qed.

(** Whitespace around a string does not change what [strip] returns. *)
Lemma strip_pad ws1 s ws2 :
  all_space R ws1 -> all_space R ws2 -> strip R (ws1 ++ s ++ ws2) = strip R s.
Proof.
  intros H1 H2. unfold strip. rewrite lstrip_app_space by exact H1.
  destruct (lstrip R s) as [| c u] eqn:E.
  - apply lstrip_nil in E.
    rewrite lstrip_all_space; [reflexivity |].
    apply Forall_app. split; assumption.
  - rewrite (lstrip_app_keep s ws2 c u E), E.
    apply rstrip_app_space. exact H2.
Qed.

Lemma rstrip_last s c u : rstrip R s = u ++ [c] -> is_space R c = false.
Proof.
  unfold rstrip. intros H. apply (f_equal (@rev N)) in H.
  rewrite rev_involutive, rev_app_distr in H. simpl in H.
  exact (lstrip_head R _ _ _ H).
Qed.

Lemma rstrip_head s c u :
  is_space R c = false -> exists u', rstrip R (c :: s ++ u) = c :: u'.
Proof.
  intros Hc. destruct (rstrip_split (c :: s ++ u)) as [ws [Hs Hws]].
  destruct (rstrip R (c :: s ++ u)) as [| x u'].
  - simpl in Hs. subst ws. inversion Hws. congruence.
  - simpl in Hs. injection Hs as <- _. eauto.
Qed.

End StripFacts.

Section TrimFacts.

Variable R : PyRuntime.

(** What [strip] returns is empty or starts and ends with a character
    that is not whitespace. *)
Lemma strip_ends s :
  strip R s = [] \/
  exists c1 u1 c2 u2,
    strip R s = c1 :: u1 /\ strip R s = u2 ++ [c2] /\
    is_space R c1 = false /\ is_space R c2 = false.
Proof.
  unfold strip. destruct (lstrip R s) as [| c u] eqn:E; [left; reflexivity |].
  right. pose proof (lstrip_head R _ _ _ E) as Hc.
  destruct (rstrip_head R [] c u Hc) as [u' Hu]. simpl in Hu.
  destruct (exists_last (l := rstrip R (c :: u))) as [u2 [c2 H2]];
    [rewrite Hu; discriminate |].
  exists c, u', c2, u2. repeat split; auto.
  exact (rstrip_last R _ _ _ H2).
Qed.

Lemma strip_split s :
  exists ws1 ws2, s = ws1 ++ strip R s ++ ws2 /\ all_space R ws1 /\ all_space R ws2.
Proof.
  destruct (lstrip_split R s) as [ws1 [H1 Hw1]].
  destruct (rstrip_split R (lstrip R s)) as [ws2 [H2 Hw2]].
  exists ws1, ws2. unfold strip. rewrite <- H2. auto.
Qed.

Lemma In_strip c s : In c (strip R s) -> In c s.
Proof.
  intros H. destruct (strip_split s) as [ws1 [ws2 [Hs _]]].
  rewrite Hs. apply in_or_app. right. apply in_or_app. left. exact H.
Qed.

Lemma In_collapse_ws_from c : forall s in_run,
  In c (collapse_ws_from R in_run s) ->
  c = 32%N \/ (In c s /\ is_space R c = false).
Proof.
  induction s as [| x s IH]; intros in_run; simpl; [tauto |].
  destruct (is_space R x) eqn:Hx.
  - destruct in_run; simpl; intros H.
    + destruct (IH _ H) as [-> | [Hin Hc]]; auto.
    + destruct H as [<- | H]; [auto |].
      destruct (IH _ H) as [-> | [Hin Hc]]; auto.
  - simpl. intros [<- | H]; [auto |].
    destruct (IH _ H) as [-> | [Hin Hc]]; auto.
Qed.

Lemma In_replace_unsafe c s : In c (replace_unsafe s) -> is_unsafe c = false.
Proof.
  unfold replace_unsafe. intros H. apply in_map_iff in H.
  destruct H as [x [<- _]]. destruct (is_unsafe x) eqn:Hx; [reflexivity | exact Hx].
Qed.

End TrimFacts.

(** X9: [sanitize_any] removes the whitespace around a value and nothing
    else: a value of whitespace only (the empty string included) gives
    the default, and any other value is whitespace, the result,
    whitespace, where the result starts and ends with a character that is
    not whitespace. *)
Theorem sanitize_any_trims (R : PyRuntime) (v default : str) :
  (all_space R v -> sanitize_any R (Some v) (Some default) = Some default) /\
  (~ all_space R v ->
   exists ws1 r ws2 c1 u1 c2 u2,
     sanitize_any R (Some v) (Some default) = Some r /\
     v = ws1 ++ r ++ ws2 /\ all_space R ws1 /\ all_space R ws2 /\
     r = c1 :: u1 /\ r = u2 ++ [c2] /\
     is_space R c1 = false /\ is_space R c2 = false).
Proof.
  rewrite sanitize_any_value. split; intros Hv.
  - apply strip_nil in Hv. rewrite Hv. reflexivity.
  - destruct (strip_split R v) as [ws1 [ws2 [Hs [Hw1 Hw2]]]].
    destruct (strip_ends R v) as [E | [c1 [u1 [c2 [u2 [E1 [E2 [H1 H2]]]]]]]].
    + elim Hv. apply strip_nil. exact E.
    + exists ws1, (strip R v), ws2, c1, u1, c2, u2.
      rewrite E1 at 1. cbn [is_empty]. rewrite <- E1. auto 10.
Qed.

Lemma sanitize_any_trims_witness :
  sanitize_any latin1 (Some (lit "   ")) (Some (lit "1")) = Some (lit "1") /\
  exists r, sanitize_any latin1 (Some (lit " PO 9 ")) (Some (lit "1")) = Some r.
Proof.
  split.
  - apply (proj1 (sanitize_any_trims latin1 (lit "   ") (lit "1"))).
    repeat constructor.
  - destruct (proj2 (sanitize_any_trims latin1 (lit " PO 9 ") (lit "1")))
      as [ws1 [r [ws2 [c1 [u1 [c2 [u2 [H _]]]]]]]].
    + intros H. inversion H as [| x l Hx Hl]. inversion Hl as [| y l' Hy _].
      discriminate Hy.
    + exists r. exact H.
Defined.

(** X10: a component that [safe_filename_component] returns is clean:
    it holds none of the characters slash, star, question mark, colon,
    double quote, angle brackets and bar, its only whitespace character
    is the plain space, and it neither starts nor ends with whitespace.
    This holds for the default as well, which goes through the same
    cleaning. *)
Theorem safe_filename_component_clean (R : PyRuntime) (value : option str)
  (default s : str) :
  safe_filename_component R value (Some default) = Ok s ->
  (forall c, In c s ->
     is_unsafe c = false /\ (is_space R c = true -> c = 32%N)) /\
  (s = [] \/
   exists c1 u1 c2 u2,
     s = c1 :: u1 /\ s = u2 ++ [c2] /\
     is_space R c1 = false /\ is_space R c2 = false).
Proof.
  unfold safe_filename_component.
  destruct (py_or (sanitize_any R value (Some default)) (Some default))
    as [x |]; [| discriminate].
  intros H. injection H as <-. split; [| apply strip_ends].
  intros c Hc. apply In_strip in Hc. apply In_collapse_ws_from in Hc.
  destruct Hc as [-> | [Hin Hsp]].
  - split; [reflexivity | reflexivity].
  - split; [exact (In_replace_unsafe c x Hin) | congruence].
Qed.

Lemma safe_filename_component_clean_witness :
  exists s,
    safe_filename_component latin1 (Some (lit " A/B:  C* ")) (Some (lit "Company"))
      = Ok s /\
    s = lit "A_B_ C_" /\
    forall c, In c s -> is_unsafe c = false.
Proof.
  exists (lit "A_B_ C_"). split; [vm_compute; reflexivity |].
  split; [reflexivity |].
  intros c Hc.
  apply (proj1 (safe_filename_component_clean latin1
                  (Some (lit " A/B:  C* ")) (lit "Company") (lit "A_B_ C_")
                  eq_refl) c Hc).
Defined.

(** ** Header cells with surrounding whitespace *)

Lemma normalize_for_match_pad (R : PyRuntime) ws1 h ws2 :
  all_space R ws1 -> all_space R ws2 ->
  normalize_for_match R (Some (ws1 ++ h ++ ws2)) = normalize_for_match R (Some h).
Proof.
  intros H1 H2. unfold normalize_for_match. rewrite strip_pad by assumption.
  reflexivity.
Qed.

(** X11: whitespace around the cells of the header row does not change
    the column map: a header whose cells are those of another one with
    whitespace before and after resolves every field to the same
    position. *)
Theorem build_column_map_padding (R : PyRuntime) (header header' : list str) :
  Forall2 (fun h h' => exists ws1 ws2,
             all_space R ws1 /\ all_space R ws2 /\ h' = ws1 ++ h ++ ws2)
          header header' ->
  build_column_map R header' = build_column_map R header.
Proof.
  intros H.
  assert (Hn : map (fun h => normalize_for_match R (Some h)) header'
               = map (fun h => normalize_for_match R (Some h)) header).
  { induction H as [| h h' l l' [ws1 [ws2 [H1 [H2 ->]]]] _ IH]; cbn [map];
      [reflexivity |].
    rewrite normalize_for_match_pad by assumption. rewrite IH. reflexivity. }
  unfold build_column_map. rewrite Hn. reflexivity.
Qed.

Lemma build_column_map_padding_witness :
  build_column_map latin1 [lit " Artikel"; lit "Karton  "]
    = build_column_map latin1 [lit "Artikel"; lit "Karton"].
Proof.
  apply (build_column_map_padding latin1
           [lit "Artikel"; lit "Karton"] [lit " Artikel"; lit "Karton  "]).
  constructor; [| constructor; [| constructor]].
  - exists (lit " "), []. repeat split; repeat constructor.
  - exists [], (lit "  "). repeat split; repeat constructor.
Defined.

(** ** The fitted box *)

Lemma clamp_factor_exact size target :
  0 < target -> target <= size -> size * clamp_factor size target == target.
Proof.
  intros Ht Hle. unfold clamp_factor.
  destruct (Qgtb size target) eqn:E.
  - field. lra.
  - apply Qgtb_false in E. lra.
Qed.

(** X12: when the baseline render is at least 100 wide and the target
    box is no higher than natural height / 100 times its width, both
    clamps bind and the fitted box does not depend on the payload at all:
    its height is the target height and its width is 100 times the target
    height over the natural height (250 by 100 on A4 at bar height 40).
    The bar width falls to the floor exactly when the baseline render is
    more than six times wider than that. *)
Theorem barcode_fit_box size_width_init size_height_init
  size_width_target size_height_target :
  100 <= size_width_init -> 0 < size_height_init ->
  0 < size_width_target -> 0 < size_height_target ->
  size_height_target * 100 <= size_height_init * size_width_target ->
  exists f,
    barcode_fit size_width_init size_height_init
      size_width_target size_height_target = Ok f /\
    final_height f == size_height_target /\
    final_width f == 100 * size_height_target / size_height_init /\
    (6 * final_width f < size_width_init -> bar_width_final f = min_bar_width) /\
    (size_width_init <= 6 * final_width f ->
     bar_width_final f == 1.2 * final_width f / size_width_init).
Proof.
  intros HW0 HH0 HWt HHt Hbind.
  destruct (barcode_fit_ok size_width_init size_height_init
              size_width_target size_height_target) as [f [Ef [Hw [Hh Hb]]]];
    [lra | exact HWt | exact HHt |].
  exists f. split; [exact Ef |]. cbv zeta in Hw, Hh.
  pose proof (candidate_proportion size_width_init size_height_init
                size_width_target) as Hc.
  set (cw := fst (candidate size_width_init size_height_init size_width_target)) in *.
  set (ch := snd (candidate size_width_init size_height_init size_width_target)) in *.
  set (sw := clamp_factor cw size_width_target) in *.
  set (sh := clamp_factor (ch * sw) size_height_target) in *.
  assert (Hcw : size_width_target <= cw).
  { unfold cw, candidate. cbn [fst].
    assert (H1 : 1 <= size_width_init / 100.0) by (apply Qle_shift_div_l; lra).
    nra. }
  assert (E1 : cw * sw == size_width_target)
    by (apply clamp_factor_exact; assumption).
  assert (Eh1 : ch * sw == size_height_init / 100 * size_width_target)
    by (rewrite Hc, <- E1; ring).
  assert (Hh1 : size_height_target <= ch * sw).
  { rewrite Eh1. apply Qle_shift_div_l in Hbind; [| lra].
    assert (E : size_height_init / 100 * size_width_target
                == size_height_init * size_width_target / 100) by field.
    rewrite E. exact Hbind. }
  assert (E2 : ch * sw * sh == size_height_target)
    by (apply clamp_factor_exact; assumption).
  assert (Efh : final_height f == size_height_target) by (rewrite Hh; exact E2).
  assert (Efw : final_width f == 100 * size_height_target / size_height_init).
  { rewrite Hw, E1. rewrite <- E2, Eh1. field. lra. }
  split; [exact Efh |]. split; [exact Efw |].
  assert (Hfw : 0 < final_width f).
  { rewrite Efw. apply Qlt_shift_div_l; lra. }
  assert (Ebw : initial_bar_width * (final_width f / size_width_init)
                == 1.2 * final_width f / size_width_init)
    by (unfold initial_bar_width, bar_scale; field; lra).
  split; intros Hcmp.
  - rewrite Hb.
    assert (E : Qltb (initial_bar_width * (final_width f / size_width_init))
                  min_bar_width = true).
    { apply Qgtb_true. rewrite Ebw. unfold min_bar_width.
      apply Qlt_shift_div_r; lra. }
    rewrite E. reflexivity.
  - rewrite Hb.
    assert (E : Qltb (initial_bar_width * (final_width f / size_width_init))
                  min_bar_width = false).
    { apply Qgtb_false. rewrite Ebw. unfold min_bar_width.
      apply Qle_shift_div_l; lra. }
    rewrite E. exact Ebw.
Qed.

Lemma barcode_fit_box_witness :
  100 <= 1314 # 5 /\ 0 < 40 /\ 0 < 58836 # 127 /\ 0 < 100 /\
  100 * 100 <= 40 * (58836 # 127) /\
  exists f,
    barcode_fit (1314 # 5) 40 (58836 # 127) 100 = Ok f /\
    final_height f == 100 /\ final_width f == 100 * 100 / 40.
Proof.
  split; [discriminate |]. split; [reflexivity |]. split; [reflexivity |].
  split; [reflexivity |]. split; [discriminate |].
  destruct (barcode_fit_box (1314 # 5) 40 (58836 # 127) 100)
    as [f [Ef [Hh [Hw _]]]];
    try reflexivity; try discriminate.
  exists f. auto.
Defined.

(** ** The run of a file *)

Section RunFacts.

Variable R : PyRuntime.
Variable B : Backend.

(** [run_csv] is the run of the labels of the file. *)
Lemma run_csv_emit rows : run_csv R B rows = emit R B (csv_labels R rows) [].
Proof.
  unfold run_csv, csv_labels. rewrite run_rows_start.
  destruct (kept_rows R rows) as [| h data] eqn:Hk; [reflexivity |].
  rewrite run_rows_data.
  assert (Hd : kept_rows R data = data).
  { assert (Hkk : kept_rows R (h :: data) = h :: data)
      by (rewrite <- Hk; apply filter_idem).
    unfold kept_rows in Hkk |- *. simpl in Hkk.
    destruct (negb (is_blank_row R h)).
    - injection Hkk as Hkk. exact Hkk.
    - pose proof (filter_length_le (fun row => negb (is_blank_row R row)) data)
        as Hl.
      rewrite Hkk in Hl. simpl in Hl. lia. }
  rewrite Hd. destruct (emit R B _ []) as [out e]. reflexivity.
Qed.


Lemma emit_stops calls1 : forall out files a calls2 e,
  Forall2 (fun a p => generate_pdf R B a = Ok p) calls1 files ->
  generate_pdf R B a = Raise e ->
  emit R B (calls1 ++ a :: calls2) out = (out ++ files, Some e).
Proof.
  induction calls1 as [| c calls1 IH]; intros out files a calls2 e Hok Ha.
  - inversion Hok; subst. simpl. rewrite Ha, app_nil_r. reflexivity.
  - inversion Hok as [| x p l files' Hp Hrest]; subst. simpl. rewrite Hp.
    rewrite (IH (out ++ [p]) files' a calls2 e Hrest Ha), <- app_assoc.
    reflexivity.
Qed.


End RunFacts.




(** X14: a file without data rows (no row at all, blank rows only, or a
    header followed by blank rows only) writes no file and raises
    nothing. *)
Theorem run_csv_no_data (R : PyRuntime) (B : Backend) (rows : list (list str)) :
  (length (kept_rows R rows) <= 1)%nat ->
  run_csv R B rows = ([], None).
Proof.
  intros H. rewrite run_csv_emit. unfold csv_labels.
  destruct (kept_rows R rows) as [| h [| r data]]; [reflexivity | reflexivity |].
  simpl in H. lia.
Qed.

Lemma run_csv_no_data_witness :
  run_csv latin1 demo_backend [ []; demo_header; [lit " "; lit EmptyString] ]
    = ([], None).
Proof.
  apply (run_csv_no_data latin1 demo_backend
           [ []; demo_header; [lit " "; lit EmptyString] ]).
  vm_compute. lia.
Defined.

(** X15: when the call for one label raises, the run ends there with
    that exception: the files of the labels before it have been written,
    and no label after it is processed. *)
Theorem run_csv_stops_at_exception (R : PyRuntime) (B : Backend)
  (rows : list (list str)) (before after : list label) (a : label)
  (files : list pdf) (e : exn) :
  csv_labels R rows = before ++ a :: after ->
  Forall2 (fun a p => generate_pdf R B a = Ok p) before files ->
  generate_pdf R B a = Raise e ->
  run_csv R B rows = (files, Some e).
Proof.
  intros Hl Hok Ha. rewrite run_csv_emit, Hl.
  apply (emit_stops R B before [] files a after e Hok Ha).
Qed.

(** Three cartons on a backend that fails on the second payload: the
    first file is written, the run ends with the exception. *)
Lemma run_csv_stops_at_exception_witness :
  exists p1,
    generate_pdf latin1 failing_backend
      (label_of_row demo_colmap (demo_row "3") (lit "1")) = Ok p1 /\
    run_csv latin1 failing_backend [demo_header; demo_row "3"]
      = ([p1], Some ZeroDivisionError).
Proof.
  destruct (generate_pdf latin1 failing_backend
              (label_of_row demo_colmap (demo_row "3") (lit "1")))
    as [p1 | e] eqn:E1; [| vm_compute in E1; discriminate E1].
  exists p1. split; [reflexivity |].
  apply (run_csv_stops_at_exception latin1 failing_backend
           [demo_header; demo_row "3"]
           [label_of_row demo_colmap (demo_row "3") (lit "1")]
           [label_of_row demo_colmap (demo_row "3") (lit "3")]
           (label_of_row demo_colmap (demo_row "3") (lit "2"))
           [p1] ZeroDivisionError).
  - vm_compute. reflexivity.
  - constructor; [exact E1 | constructor].
  - vm_compute. reflexivity.
Defined.

(** ** Labels of a data row *)

Section LabelFacts.

Variable R : PyRuntime.

Lemma carton_total_pos karton_raw : (1 <= carton_total R karton_raw)%Z.
Proof.
  unfold carton_total.
  match goal with
  | |- context [(?k <? 1)%Z] => destruct (Z.ltb_spec k 1); lia
  end.
Qed.

Lemma carton_total_default : carton_total R (lit "1") = 1%Z.
Proof.
  rewrite carton_total_eq.
  assert (Hd : remove_non_digits R (lit "1") = lit "1").
  { unfold remove_non_digits. simpl. unfold is_decimal.
    replace (decimal_value R _) with (Some 1%N); [reflexivity |].
    symmetry. exact (decimal_value_ascii_digit R 1 eq_refl). }
  rewrite Hd. cbn [is_empty lit]. unfold total_of_digits.
  rewrite over_limit_small by (simpl; lia).
  unfold digits_value. simpl.
  replace (decimal_value R _) with (Some 1%N); [reflexivity |].
  symmetry. exact (decimal_value_ascii_digit R 1 eq_refl).
Qed.

End LabelFacts.

(** X16: every data row gives at least one label, and its labels are
    numbered 1, 2, ... up to the carton total without a gap: label number
    [i], counted from 0, carries the carton number [i + 1] and the fields
    of the row. *)
Theorem row_labels_numbered (R : PyRuntime) (colmap : ColumnMap) (row : list str) :
  let n := Z.to_nat (carton_total R (carton_cell colmap row)) in
  (1 <= n)%nat /\
  row_labels R colmap row =
    map (fun i => label_of_row colmap row (str_of_int (Z.of_nat i + 1)))
        (seq 0 n).
Proof.
  cbv zeta. pose proof (carton_total_pos R (carton_cell colmap row)) as Hpos.
  split; [lia |].
  rewrite row_labels_eq. unfold py_range. rewrite map_map.
  replace (Z.to_nat (carton_total R (carton_cell colmap row) + 1 - 1))
    with (Z.to_nat (carton_total R (carton_cell colmap row))) by lia.
  apply map_ext. intros i. f_equal. f_equal. lia.
Qed.

(** X17: a data row whose carton column is missing from the header, or
    which is too short to have a carton cell, gives exactly one label,
    numbered 1. *)
Theorem row_labels_missing_carton (R : PyRuntime) (colmap : ColumnMap)
  (row : list str) :
  carton colmap = None \/
  (exists i, carton colmap = Some i /\ (Z.of_nat (length row) <= i)%Z) ->
  row_labels R colmap row = [ label_of_row colmap row (lit "1") ].
Proof.
  intros H. rewrite row_labels_eq.
  assert (Hc : carton_cell colmap row = lit "1").
  { unfold carton_cell, get_cell. destruct H as [-> | [i [-> Hi]]]; [reflexivity |].
    destruct (Z.ltb_spec i 0); [reflexivity |].
    destruct (Z.geb_spec i (Z.of_nat (length row))); [reflexivity | lia]. }
  rewrite Hc, carton_total_default. reflexivity.
Qed.

Lemma row_labels_missing_carton_witness :
  row_labels latin1 demo_colmap [lit "Acme"; lit "SKU123"; lit "045"] =
    [ label_of_row demo_colmap [lit "Acme"; lit "SKU123"; lit "045"] (lit "1") ].
Proof.
  apply (row_labels_missing_carton latin1 demo_colmap
           [lit "Acme"; lit "SKU123"; lit "045"]).
  right. exists 5%Z. split; [reflexivity | simpl; lia].
Defined.

(** ** The displayed quantity *)

Lemma digits_value_lstrip_zeros (R : PyRuntime) (ds : str) :
  digits_value R (lstrip_char 48 ds) = digits_value R ds.
Proof.
  unfold digits_value. induction ds as [| c ds IH]; simpl; [reflexivity |].
  destruct (N.eqb_spec c 48) as [-> | Hne]; [| reflexivity].
  replace (decimal_value R 48) with (Some 0%N)
    by (symmetry; exact (decimal_value_ascii_digit R 0 eq_refl)).
  exact IH.
Qed.

(** X18: [strip_leading_zeros_keep_zero] keeps the number: the string it
    returns denotes the same number as the digits of its input, so the
    quantity shown on the label and the digits in the barcode payload
    agree in value. *)
Theorem strip_leading_zeros_keeps_value (R : PyRuntime) (s : option str) (r : str) :
  strip_leading_zeros_keep_zero R s = Ok r ->
  digits_value R r = digits_value R (digits_of R s).
Proof.
  rewrite strip_leading_zeros_keep_zero_eq. intros H. injection H as <-.
  rewrite <- (digits_value_lstrip_zeros R (digits_of R s)).
  destruct (lstrip_char 48 (digits_of R s)); [| reflexivity].
  unfold digits_value. simpl.
  replace (decimal_value R _) with (Some 0%N); [reflexivity |].
  symmetry. exact (decimal_value_ascii_digit R 0 eq_refl).
Qed.

Lemma strip_leading_zeros_keeps_value_witness :
  digits_value latin1 (lit "45") = digits_value latin1 (lit "045").
Proof.
  apply (strip_leading_zeros_keeps_value latin1 (Some (lit "0 4-5")) (lit "45")).
  vm_compute. reflexivity.
Defined.

(** ** Font setup *)

(** X19: after the font setup both font names can be used: each is a
    built-in name or a name whose registration succeeded, and nothing is
    in the registry that failed to register. A failed registration of the
    bold font puts both names back to the built-in ones, also when the
    regular font had been registered just before; and a regular font
    without a bold file serves as the bold font too. *)
Theorem font_setup_usable (regular_exists bold_exists : bool)
  (register_ok : str -> bool) :
  let f := font_setup regular_exists bold_exists register_ok in
  (font_regular f = builtin_regular \/ In (font_regular f) (registry f)) /\
  (font_bold f = builtin_bold \/ In (font_bold f) (registry f)) /\
  (forall name, In name (registry f) -> register_ok name = true) /\
  (bold_exists = true -> register_ok custom_bold = false ->
   font_regular f = builtin_regular /\ font_bold f = builtin_bold) /\
  (regular_exists = true -> bold_exists = false ->
   register_ok custom_regular = true ->
   font_regular f = custom_regular /\ font_bold f = custom_regular).
Proof.
  cbv zeta. unfold font_setup, font_setup_bold, font_fallback.
  destruct regular_exists, bold_exists;
    destruct (register_ok custom_regular) eqn:Er;
    destruct (register_ok custom_bold) eqn:Eb;
    repeat match goal with
    | |- context [list_eq_dec N.eq_dec ?a ?b] =>
        destruct (list_eq_dec N.eq_dec a b)
    end;
    cbn [registry font_regular font_bold app];
    repeat split; try discriminate; try congruence; auto;
    try (simpl; intuition (subst; auto; congruence)).
Qed.

Lemma font_setup_usable_witness :
  font_regular (font_setup true true (fun name => negb (N.eqb (length_N name) 20)))
    = builtin_regular /\
  font_bold (font_setup true false (fun _ => true)) = custom_regular.
Proof.
  split.
  - apply (proj1 (proj2 (proj2 (proj2 (font_setup_usable true true
             (fun name => negb (N.eqb (length_N name) 20))))))); reflexivity.
  - apply (proj2 (proj2 (proj2 (proj2 (font_setup_usable true false
             (fun _ => true)))))); reflexivity.
Defined.

(** ** Positions of the column map *)

Lemma first_match_in_range R patterns normalized i :
  first_match R patterns normalized (Some i) ->
  (0 <= i < Z.of_nat (length normalized))%Z.
Proof.
  intros [Hi [[h [Hn _]] _]].
  assert (Z.to_nat i < length normalized)%nat
    by (apply nth_error_Some; congruence).
  lia.
Qed.

(** X20: every position of the column map lies within the header row, so
    that a data row at least as long as the header has a cell at every
    resolved position: [get_cell] returns that cell and never its
    default there. *)
Theorem build_column_map_in_range (R : PyRuntime) (header row : list str)
  (i : Z) (default : str) :
  In (Some i) (positions (build_column_map R header)) ->
  (0 <= i < Z.of_nat (length header))%Z /\
  ((length header <= length row)%nat ->
   nth_error row (Z.to_nat i) = Some (get_cell row (Some i) default)).
Proof.
  intros Hin.
  assert (Hr : (0 <= i < Z.of_nat (length header))%Z).
  { unfold positions, build_column_map in Hin.
    cbn [company article quantity batch order carton In] in Hin.
    rewrite <- (length_map (fun h => normalize_for_match R (Some h)) header).
    destruct Hin as [H | [H | [H | [H | [H | [H | []]]]]]];
      match type of H with
      | find_idx R ?n ?ps = Some i =>
          pose proof (find_idx_first_match R n ps) as Hf; rewrite H in Hf;
          exact (first_match_in_range R ps n i Hf)
      end. }
  split; [exact Hr |]. intros Hlen. unfold get_cell.
  destruct (Z.ltb_spec i 0); [lia |].
  destruct (Z.geb_spec i (Z.of_nat (length row))); [lia |].
  cbn [orb]. apply nth_error_nth'. lia.
Qed.

Lemma build_column_map_in_range_witness :
  (0 <= 2 < Z.of_nat (length demo_header))%Z /\
  nth_error (demo_row "2") 2 = Some (get_cell (demo_row "2") (Some 2%Z) (lit "0")).
Proof.
  destruct (build_column_map_in_range latin1 demo_header (demo_row "2") 2 (lit "0"))
    as [Hr Hc].
  - vm_compute. right. right. left. reflexivity.
  - split; [exact Hr | apply Hc; simpl; lia].
Defined.

(** ** What the patterns match *)

Section PatternFacts.

Variable R : PyRuntime.

Lemma prev_after_app prev s t :
  prev_after prev (s ++ t) = prev_after (prev_after prev s) t.
Proof. unfold prev_after. apply fold_left_app. Qed.

Lemma match_here_boundary q prev s :
  match_here R (WordBoundary :: q) prev s =
    at_boundary R prev s && match_here R q prev s.
Proof. reflexivity. Qed.

Lemma match_here_spaces_nil q prev :
  match_here R (Spaces :: q) prev [] = match_here R q prev [] || false.
Proof. reflexivity. Qed.

Lemma match_here_spaces_cons q prev x s :
  match_here R (Spaces :: q) prev (x :: s) =
    match_here R q prev (x :: s) ||
    (is_space R x && match_here R (Spaces :: q) (Some x) s).
Proof. reflexivity. Qed.

(** Literal characters, then the rest of the pattern. *)
Lemma match_here_chars_then (w : str) q : forall prev s,
  match_here R (map Chr w ++ q) prev s = true <->
  exists rest, s = w ++ rest /\ match_here R q (prev_after prev w) rest = true.
Proof.
  induction w as [| c w IH]; intros prev s.
  - simpl. split; [intros H; exists s; auto | intros [rest [-> H]]; exact H].
  - cbn [map app]. destruct s as [| x s].
    + simpl. split; [discriminate | intros [rest [H _]]; discriminate].
    + cbn [match_here]. rewrite andb_true_iff, N.eqb_eq, IH. split.
      * intros [-> [rest [-> H]]]. exists rest. split; [reflexivity | exact H].
      * intros [rest [H Hm]]. injection H as -> ->. split; eauto.
Qed.

(** [\s*], then the rest of the pattern. *)
Lemma match_here_spaces q : forall s prev,
  match_here R (Spaces :: q) prev s = true <->
  exists ws rest, s = ws ++ rest /\ all_space R ws /\
    match_here R q (prev_after prev ws) rest = true.
Proof.
  induction s as [| x s IH]; intros prev.
  - rewrite match_here_spaces_nil, orb_false_r. split.
    + intros H. exists [], []. repeat split; [constructor | exact H].
    + intros [ws [rest [Hs [_ H]]]].
      symmetry in Hs. apply app_eq_nil in Hs. destruct Hs as [-> ->]. exact H.
  - rewrite match_here_spaces_cons, orb_true_iff, andb_true_iff, IH. split.
    + intros [H | [Hx [ws [rest [-> [Hws H]]]]]].
      * exists [], (x :: s). repeat split; [constructor | exact H].
      * exists (x :: ws), rest. repeat split; [constructor; assumption | exact H].
    + intros [ws [rest [Hs [Hws H]]]]. destruct ws as [| y ws].
      * left. simpl in Hs. subst rest. exact H.
      * right. simpl in Hs. injection Hs as <- ->.
        inversion Hws; subst. split; [assumption |].
        exists ws, rest. repeat split; assumption.
Qed.

(** [re.search] tries every position. *)
Lemma search_from_iff p : forall s prev,
  search_from R p prev s = true <->
  exists pre rest, s = pre ++ rest /\
    match_here R p (prev_after prev pre) rest = true.
Proof.
  induction s as [| x s IH]; intros prev; cbn [search_from];
    rewrite orb_true_iff.
  - split.
    + intros [H | H]; [| discriminate]. exists [], []. auto.
    + intros [pre [rest [Hs H]]].
      symmetry in Hs. apply app_eq_nil in Hs. destruct Hs as [-> ->]. auto.
  - rewrite IH. split.
    + intros [H | [pre [rest [-> H]]]].
      * exists [], (x :: s). auto.
      * exists (x :: pre), rest. auto.
    + intros [pre [rest [Hs H]]]. destruct pre as [| y pre].
      * left. simpl in Hs. subst rest. exact H.
      * right. simpl in Hs. injection Hs as <- ->. exists pre, rest. auto.
Qed.

Lemma match_here_end prev s : match_here R [] prev s = true.
Proof. reflexivity. Qed.

End PatternFacts.

(** X21: a pattern of two words joined by [\s*] (item no, article no)
    is found in a cell exactly when the cell holds the first word, then
    any whitespace, none included, then the second word. *)
Theorem re_search_two_words (R : PyRuntime) (a b : string) (h : str) :
  re_search R (chars a ++ Spaces :: chars b) h = true <->
  exists pre ws post,
    h = pre ++ lit a ++ ws ++ lit b ++ post /\ all_space R ws.
Proof.
  unfold re_search, chars. rewrite search_from_iff. split.
  - intros [pre [rest [-> H]]].
    apply match_here_chars_then in H. destruct H as [r1 [-> H]].
    apply match_here_spaces in H. destruct H as [ws [r2 [-> [Hws H]]]].
    apply match_here_chars in H. destruct H as [post ->].
    exists pre, ws, post. auto.
  - intros [pre [ws [post [-> Hws]]]].
    exists pre, (lit a ++ ws ++ lit b ++ post). split; [reflexivity |].
    apply match_here_chars_then. exists (ws ++ lit b ++ post).
    split; [reflexivity |].
    apply match_here_spaces. exists ws, (lit b ++ post).
    repeat split; [exact Hws |].
    apply match_here_chars. exists post. reflexivity.
Qed.

(** X22: a pattern between two [\b] (company, firma, unternehmen, sku,
    item, article), for a word of word characters, is found in a cell
    exactly when the cell holds the word with no word character right
    before it and none right after it. *)
Theorem re_search_whole_word (R : PyRuntime) (w : string) (h : str) :
  lit w <> [] -> Forall (fun c => is_word R c = true) (lit w) ->
  (re_search R (whole_word w) h = true <->
   exists pre post,
     h = pre ++ lit w ++ post /\
     word_at R (prev_after None pre) = false /\
     word_at R (hd_error post) = false).
Proof.
  intros Hne Hw. unfold re_search, whole_word, chars.
  assert (Hhd : forall post, word_at R (hd_error (lit w ++ post)) = true).
  { intros post. destruct (lit w) as [| c u]; [congruence |].
    inversion Hw; subst. assumption. }
  assert (Hlast : forall prev, word_at R (prev_after prev (lit w)) = true).
  { intros prev. destruct (exists_last Hne) as [u [c Hu]]. rewrite Hu.
    rewrite prev_after_app. simpl.
    rewrite Hu in Hw. apply Forall_app in Hw. destruct Hw as [_ Hc].
    inversion Hc; subst. assumption. }
  rewrite search_from_iff. split.
  - intros [pre [rest [-> H]]].
    rewrite match_here_boundary in H. apply andb_true_iff in H.
    destruct H as [Hb1 H].
    apply match_here_chars_then in H. destruct H as [post [-> H]].
    rewrite match_here_boundary, andb_true_iff in H. destruct H as [Hb2 _].
    exists pre, post. split; [reflexivity |].
    unfold at_boundary in Hb1, Hb2. rewrite Hhd in Hb1. rewrite Hlast in Hb2.
    split.
    + destruct (word_at R (prev_after None pre)); [discriminate | reflexivity].
    + destruct (word_at R (hd_error post)); [discriminate | reflexivity].
  - intros [pre [post [-> [H1 H2]]]].
    exists pre, (lit w ++ post). split; [reflexivity |].
    rewrite match_here_boundary. apply andb_true_iff. split.
    + unfold at_boundary. rewrite Hhd, H1. reflexivity.
    + apply match_here_chars_then. exists post. split; [reflexivity |].
      rewrite match_here_boundary. apply andb_true_iff. split; [| reflexivity].
      unfold at_boundary. rewrite Hlast, H2. reflexivity.
Qed.

Lemma re_search_whole_word_witness :
  re_search latin1 (whole_word "item") (lit "item-no") = true /\
  re_search latin1 (whole_word "item") (lit "items") = false.
Proof.
  split.
  - apply (proj2 (re_search_whole_word latin1 "item" (lit "item-no")
                    ltac:(discriminate) ltac:(repeat constructor))).
    exists [], (lit "-no"). repeat split.
  - reflexivity.
Defined.

(** ** Texts and fonts of a page *)

Lemma texts_app ops1 ops2 : texts (ops1 ++ ops2) = texts ops1 ++ texts ops2.
Proof. apply flat_map_app. Qed.

Lemma texts_draw_row B label_x col1_w col2_w y_top height
  main_label sub_label value shrinkable :
  texts (draw_row B label_x col1_w col2_w y_top height main_label sub_label
           (Some value) shrinkable)
    = [main_label; sub_label; value].
Proof. reflexivity. Qed.

(** X23: the texts of a written page, in the order they are drawn: the
    company, then for each row its two captions and its value, with the
    payload as the caption of the barcode. Every value is drawn, an empty
    one included, and each is the trimmed cell or its default. *)
Theorem generate_pdf_texts (R : PyRuntime) (B : Backend) (a : label) (p : pdf) :
  generate_pdf R B a = Ok p ->
  texts (page p) =
    [ company_of R a;
      lit "Article No."; lit "(SKU)"; strip R (artikel_raw a);
      lit "Quantity"; lit "(Per box)"; quantity_display_of R a;
      payload_of R a;
      lit "Order Index"; lit "(Nth item in your order)";
      (if is_empty (strip R (batch_raw a)) then lit "1"
       else strip R (batch_raw a));
      lit "Order No."; lit "(Your order number)"; strip R (order_raw a);
      lit "Box No."; lit "(Nth box for this Article No.)"; carton_no a ].
Proof.
  intros H. destruct (generate_pdf_inv R B a p H) as [h [w [x [y [cx [cy ->]]]]]].
  cbn [page]. unfold page_with.
  destruct (frame_of B) as [[[label_x label_y] label_w] label_h]. cbv zeta.
  rewrite !sanitize_any_value, !texts_app, !texts_draw_row.
  destruct (strip R (artikel_raw a)), (strip R (order_raw a)); reflexivity.
Qed.

Lemma generate_pdf_texts_witness :
  exists p,
    generate_pdf latin1 demo_backend demo_label = Ok p /\
    nth 3 (texts (page p)) [] = lit "SKU123" /\
    nth 6 (texts (page p)) [] = lit "45" /\
    nth 7 (texts (page p)) [] = lit "SKU123|045|7|1".
Proof.
  destruct (generate_pdf latin1 demo_backend demo_label) as [p | e] eqn:E;
    [| vm_compute in E; discriminate E].
  exists p. split; [reflexivity |].
  rewrite (generate_pdf_texts latin1 demo_backend demo_label p E).
  repeat split; vm_compute; reflexivity.
Defined.

Lemma shrink_to_fit_range width_at available_w min_font font_size :
  (min_font <= font_size)%Z ->
  (min_font <= shrink_to_fit width_at available_w min_font font_size
            <= font_size)%Z.
Proof.
  intros Hle.
  destruct (shrink_to_fit_result width_at available_w min_font font_size Hle)
    as [n [_ [Hn [Heq _]]]].
  lia.
Qed.

Lemma fonts_set_app ops1 ops2 :
  fonts_set (ops1 ++ ops2) = fonts_set ops1 ++ fonts_set ops2.
Proof. apply flat_map_app. Qed.

Lemma fonts_set_draw_row B label_x col1_w col2_w y_top height
  main_label sub_label value shrinkable :
  Forall (fun fs => fst fs = FONT_BOLD B /\ (8 <= snd fs <= 36)%Z)
    (fonts_set (draw_row B label_x col1_w col2_w y_top height
                  main_label sub_label value shrinkable)).
Proof.
  unfold draw_row. rewrite fonts_set_app. apply Forall_app. split.
  - repeat constructor; cbn [snd]; lia.
  - destruct value as [v |]; [| constructor].
    repeat constructor; cbn [fst snd].
    + destruct shrinkable; [| lia]. apply shrink_to_fit_range. lia.
    + destruct shrinkable; [| lia]. apply shrink_to_fit_range. lia.
Qed.

(** X24: on a written page every font is set either to the bold font at
    a size from 8 to 42, the shrunk sizes included, or to the regular
    font at size 12, as for the caption of the barcode: no text is drawn
    below size 8. *)
Theorem generate_pdf_fonts (R : PyRuntime) (B : Backend) (a : label) (p : pdf) :
  generate_pdf R B a = Ok p ->
  Forall (fun fs =>
            (fst fs = FONT_BOLD B /\ (8 <= snd fs <= 42)%Z) \/
            fs = (FONT_REGULAR B, 12%Z))
         (fonts_set (page p)).
Proof.
  intros H. destruct (generate_pdf_inv R B a p H) as [h [w [x [y [cx [cy ->]]]]]].
  cbn [page]. unfold page_with.
  destruct (frame_of B) as [[[label_x label_y] label_w] label_h]. cbv zeta.
  assert (Hrow : forall yt ht m s v sh,
            Forall (fun fs =>
                      (fst fs = FONT_BOLD B /\ (8 <= snd fs <= 42)%Z) \/
                      fs = (FONT_REGULAR B, 12%Z))
                   (fonts_set (draw_row B label_x (label_w * 0.45)
                                 (label_w - label_w * 0.45) yt ht m s v sh))).
  { intros. eapply Forall_impl; [| apply fonts_set_draw_row].
    intros fs [Hf Hs]. left. split; [exact Hf | lia]. }
  pose proof (shrink_to_fit_range
                (stringWidth B (company_of R a) (FONT_BOLD B))
                (label_w - 24) 12 42 ltac:(lia)) as Hhead.
  rewrite !fonts_set_app, !Forall_app.
  repeat match goal with |- _ /\ _ => split end; try apply Hrow;
    cbn [fonts_set flat_map app];
    repeat (apply Forall_cons); try apply Forall_nil;
    first [ right; reflexivity
          | left; cbn [fst snd]; split; [reflexivity | lia] ].
Qed.

Lemma generate_pdf_fonts_witness :
  exists p,
    generate_pdf latin1 demo_backend demo_label = Ok p /\
    Forall (fun fs =>
              (fst fs = FONT_BOLD demo_backend /\ (8 <= snd fs <= 42)%Z) \/
              fs = (FONT_REGULAR demo_backend, 12%Z))
           (fonts_set (page p)).
Proof.
  destruct (generate_pdf latin1 demo_backend demo_label) as [p | e] eqn:E;
    [| vm_compute in E; discriminate E].
  exists p. split; [reflexivity |].
  exact (generate_pdf_fonts latin1 demo_backend demo_label p E).
Defined.

(** The second render of a renderer with 189 modules, as for the payload
    SKU123|045|7|1 without quiet zones: no floor, and the render is as
    wide as the fitted box. *)
Lemma rendered_width_linear_witness :
  0 < 189 /\ 0 < 58836 # 127 /\ 0 < 100 /\
  exists f,
    barcode_fit (189 * initial_bar_width) 40 (58836 # 127) 100 = Ok f /\
    189 * bar_width_final f == final_width f.
Proof.
  split; [reflexivity |]. split; [reflexivity |]. split; [reflexivity |].
  destruct (barcode_fit (189 * initial_bar_width) 40 (58836 # 127) 100)
    as [f | e] eqn:E; [| vm_compute in E; discriminate E].
  exists f. split; [reflexivity |].
  apply (proj1 (rendered_width_linear 189 40 (58836 # 127) 100 f
                  eq_refl eq_refl eq_refl E)).
  vm_compute in E. injection E as <-. reflexivity.
Defined.
